(** * SHOPNET Deals: local ledgers, cache loaders and paginators

    A shallow embedding of the data-handling code of the mobile client:
    the favourites ledger and the discover feed ([app/Favoris.tsx], the
    DiscoverScreen part), the advanced search screen (same file, the
    RechercheAvancee part), the shop detail screen, the all-shops screen
    and the promo-products screen.

    Conventions of the embedding.
    - A JavaScript [number] that holds a page index, a length or an epoch
      time is a [Z]; a price is a [Q].
    - [AsyncStorage] holds texts.  A text is either the [JSON.stringify]
      image of a value ([Json]) or a text on which [JSON.parse] throws
      ([Malformed]); [JSON.parse (JSON.stringify v)] yields [v] for the
      records stored by this application.
    - An [async] function is a computation in the monad [IO]: it reads and
      writes the world (disk, clock, console) and either resolves with a
      value or rejects.  [try { .. } catch { .. }] is [try_catch].
    - React state is a record per screen; the setters of [useState] are
      functions on that record and updates are visible to the next event. *)

From Stdlib Require Import ZArith QArith String Ascii Lia.
From stdpp Require Import base list strings gmap.

Local Open Scope string_scope.
Local Open Scope list_scope.
Local Open Scope Z_scope.

(* ===================================================================== *)
(** ** JavaScript primitives used by the screens *)
(* ===================================================================== *)

Module Js.

(** [Array.prototype.slice(start, end)]: a negative index counts from the
    end of the array, every index is clamped to [0, length]. *)
Definition relative (len i : Z) : Z :=
  if i <? 0 then Z.max (len + i) 0 else Z.min i len.

Definition slice {A : Type} (start end_ : Z) (l : list A) : list A :=
  let len := Z.of_nat (length l) in
  let k := relative len start in
  let final := relative len end_ in
  take (Z.to_nat (final - k)) (drop (Z.to_nat k) l).

(** [Array.prototype.some]. *)
Definition some {A : Type} (f : A → bool) (l : list A) : bool := existsb f l.

(** [a || b] on strings: the empty string is falsy. *)
Definition or_else (a b : string) : string :=
  match a with EmptyString => b | _ => a end.

(** [a || b] on numbers that may be missing: [undefined] and [0] are falsy. *)
Definition num_or_else (a : option Z) (b : Z) : Z :=
  match a with
  | Some n => if n =? 0 then b else n
  | None => b
  end.

(** A [string] is read as a sequence of code units below 256.  White
    space in the sense of [String.prototype.trim] is then TAB, LF, VT, FF,
    CR, SPACE and NBSP. *)
Definition is_space (c : ascii) : bool :=
  let n := nat_of_ascii c in
  ((9 <=? n)%nat && (n <=? 13)%nat) || (n =? 32)%nat || (n =? 160)%nat.

Fixpoint trim_start (s : string) : string :=
  match s with
  | String c s' => if is_space c then trim_start s' else s
  | EmptyString => EmptyString
  end.

Fixpoint trim_end (s : string) : string :=
  match s with
  | String c s' =>
      match trim_end s' with
      | EmptyString => if is_space c then EmptyString else String c EmptyString
      | t => String c t
      end
  | EmptyString => EmptyString
  end.

Definition trim (s : string) : string := trim_end (trim_start s).

(** [String.prototype.toLowerCase] on code units below 256: the letters
    A-Z and the Latin-1 capitals U+00C0-U+00DE, the multiplication sign
    U+00D7 apart, move up by 32. *)
Definition lower_char (c : ascii) : ascii :=
  let n := nat_of_ascii c in
  if (65 <=? n)%nat && (n <=? 90)%nat then ascii_of_nat (n + 32)
  else if (192 <=? n)%nat && (n <=? 222)%nat && negb (n =? 215)%nat
       then ascii_of_nat (n + 32)
  else c.

Fixpoint toLowerCase (s : string) : string :=
  match s with
  | String c s' => String (lower_char c) (toLowerCase s')
  | EmptyString => EmptyString
  end.

(** [String.prototype.startsWith]. *)
Fixpoint startsWith (s prefix : string) {struct prefix} : bool :=
  match prefix, s with
  | EmptyString, _ => true
  | String a prefix', String b s' => bool_decide (a = b) && startsWith s' prefix'
  | String _ _, EmptyString => false
  end.

(** [String.prototype.includes]: the needle occurs at some position. *)
Fixpoint includes (s needle : string) : bool :=
  startsWith s needle ||
  match s with
  | String _ s' => includes s' needle
  | EmptyString => false
  end.

(** [s.substring(1)]. *)
Definition substring1 (s : string) : string :=
  match s with
  | String _ s' => s'
  | EmptyString => EmptyString
  end.

(** The class [\d] of a regular expression: the digits 0 to 9. *)
Definition is_digit (c : ascii) : bool :=
  let n := nat_of_ascii c in (48 <=? n)%nat && (n <=? 57)%nat.

(** [s.replace(/\D/g, '')]: every code unit that is not a digit is
    removed. *)
Fixpoint digitsOnly (s : string) : string :=
  match s with
  | String c s' => if is_digit c then String c (digitsOnly s') else digitsOnly s'
  | EmptyString => EmptyString
  end.

End Js.

(* ===================================================================== *)
(** ** Asynchronous computations over the device *)
(* ===================================================================== *)

Module Async.

(** What a storage key holds. *)
Inductive Text (A : Type) : Type :=
| Malformed : Text A
| Json (a : A) : Text A.
Arguments Malformed {A}.
Arguments Json {A} a.

(** Outcome of an awaited promise. *)
Inductive Settled (A : Type) : Type :=
| Rejected : Settled A
| Resolved (a : A) : Settled A.
Arguments Rejected {A}.
Arguments Resolved {A} a.

(** The device as a screen sees it: the keys it uses ([disk]), whether the
    storage layer rejects its calls ([faulty]), the value of [Date.now()]
    and the lines written by [console.error]. *)
Record World (D : Type) : Type := mkWorld {
  disk : D;
  faulty : bool;
  clock : Z;
  console : list string
}.
Arguments mkWorld {D} _ _ _ _.
Arguments disk {D} _.
Arguments faulty {D} _.
Arguments clock {D} _.
Arguments console {D} _.

Definition IO (D A : Type) : Type := World D → Settled A * World D.

#[export] Instance IO_ret {D} : MRet (IO D) :=
  λ A a w, (Resolved a, w).

#[export] Instance IO_bind {D} : MBind (IO D) :=
  λ A B f m w,
    match m w with
    | (Resolved a, w') => f a w'
    | (Rejected, w') => (Rejected, w')
    end.

Definition throw {D A} : IO D A := λ w, (Rejected, w).

(** [try { body } catch { handler }]; effects of [body] before the throw
    stay. *)
Definition try_catch {D A} (body handler : IO D A) : IO D A :=
  λ w,
    match body w with
    | (Resolved a, w') => (Resolved a, w')
    | (Rejected, w') => handler w'
    end.

Definition Date_now {D} : IO D Z := λ w, (Resolved (clock w), w).

Definition console_error {D} (msg : string) : IO D unit :=
  λ w, (Resolved tt, mkWorld (disk w) (faulty w) (clock w) (console w ++ [msg])).

(** A storage key together with the type of what the application keeps
    under it. *)
Record Key (D A : Type) : Type := mkKey {
  key_name : string;
  peek : D → option (Text A);
  poke : Text A → D → D
}.
Arguments mkKey {D A} _ _ _.
Arguments key_name {D A} _.
Arguments peek {D A} _ _.
Arguments poke {D A} _ _ _.

(** [AsyncStorage.getItem(key)]: [null] when the key is absent. *)
Definition getItem {D A} (k : Key D A) : IO D (option (Text A)) :=
  λ w, if faulty w then (Rejected, w) else (Resolved (peek k (disk w)), w).

(** [AsyncStorage.setItem(key, JSON.stringify(v))]. *)
Definition setItem {D A} (k : Key D A) (v : A) : IO D unit :=
  λ w,
    if faulty w then (Rejected, w)
    else (Resolved tt,
          mkWorld (poke k (Json v) (disk w)) (faulty w) (clock w) (console w)).

(** [JSON.parse(text)]. *)
Definition JSON_parse {D A} (t : Text A) : IO D A :=
  match t with
  | Json a => mret a
  | Malformed => throw
  end.

(** Result and final world of a computation. *)
Definition result {D A} (m : IO D A) (w : World D) : Settled A := fst (m w).
Definition after {D A} (m : IO D A) (w : World D) : World D := snd (m w).

End Async.

Import Async.

(* ===================================================================== *)
(** ** Discover screen: favourites ledger, cache and product feed
       ([app/Favoris.tsx], DiscoverScreen) *)
(* ===================================================================== *)

Module Discover.

Definition ITEMS_PER_PAGE : Z := 10.
Definition INITIAL_LIMIT : Z := 50.
Definition CACHE_EXPIRY : Z := 5 * 60 * 1000.

(** The fields of [Product] that the data paths read; the remaining ones
    are display-only and are carried along unchanged by every function
    below. *)
Record Seller : Type := mkSeller { seller_name : string }.

Record Product : Type := mkProduct {
  p_id : string;
  p_title : string;
  p_price : Q;
  p_images : list string;
  p_isLiked : bool;
  p_seller : Seller
}.

Record Shop : Type := mkShop {
  shop_id : Z;
  shop_nom : string;
  shop_ville : string
}.

Record CacheData : Type := mkCacheData {
  timestamp : Z;
  cache_products : list Product;
  cache_shops : list Shop;
  cache_trending : list Product
}.

Record FavoriteItem : Type := mkFavoriteItem {
  fav_id : string;
  fav_title : string;
  fav_price : Q;
  fav_image : string;
  fav_sellerName : string;
  fav_addedAt : Z
}.

(** The two storage keys of the screen. *)
Record Disk : Type := mkDisk {
  favorites_text : option (Text (list FavoriteItem));
  cache_text : option (Text CacheData)
}.

Definition FAVORITES_STORAGE_KEY : Key Disk (list FavoriteItem) :=
  mkKey "@shopnet_favorites" favorites_text
        (λ t d, mkDisk (Some t) (cache_text d)).

Definition CACHE_KEY : Key Disk CacheData :=
  mkKey "@shopnet_discover_cache" cache_text
        (λ t d, mkDisk (favorites_text d) (Some t)).

(** *** Favourites ledger *)

(** [data ? JSON.parse(data) : []] inside [try .. catch { return []; }].
    The empty text is falsy in the source and unparsable here; both ways
    end in the empty list. *)
Definition getFavorites : IO Disk (list FavoriteItem) :=
  try_catch
    (data ← getItem FAVORITES_STORAGE_KEY;
     match data with
     | Some text => JSON_parse text
     | None => mret []
     end)
    (mret []).

Definition newFav (product : Product) (now : Z) : FavoriteItem :=
  {| fav_id := p_id product;
     fav_title := p_title product;
     fav_price := p_price product;
     fav_image := Js.or_else (default "" (head (p_images product))) "";
     fav_sellerName := Js.or_else (seller_name (p_seller product)) "Vendeur";
     fav_addedAt := now |}.

Definition addFavorite (product : Product) : IO Disk unit :=
  try_catch
    (favorites ← getFavorites;
     if negb (Js.some (λ fav, bool_decide (fav_id fav = p_id product)) favorites)
     then now ← Date_now;
          setItem FAVORITES_STORAGE_KEY (newFav product now :: favorites)
     else mret tt)
    (console_error "Erreur ajout favori:").

Definition removeFavorite (productId : string) : IO Disk unit :=
  try_catch
    (favorites ← getFavorites;
     let updated := filter (λ fav, fav_id fav ≠ productId) favorites in
     setItem FAVORITES_STORAGE_KEY updated)
    (console_error "Erreur suppression favori:").

Definition isFavorite (productId : string) : IO Disk bool :=
  try_catch
    (favorites ← getFavorites;
     mret (Js.some (λ fav, bool_decide (fav_id fav = productId)) favorites))
    (mret false).

(** *** Cache envelope *)

Definition loadCache : IO Disk (option CacheData) :=
  try_catch
    (cacheStr ← getItem CACHE_KEY;
     match cacheStr with
     | Some text =>
         cache ← JSON_parse text;
         now ← Date_now;
         if now - timestamp cache <? CACHE_EXPIRY
         then mret (Some cache)
         else mret None
     | None => mret None
     end)
    (console_error "Erreur chargement cache:";; mret None).

Definition saveCache (products : list Product) (shops : list Shop)
    (trending : list Product) : IO Disk unit :=
  try_catch
    (now ← Date_now;
     setItem CACHE_KEY (mkCacheData now products shops trending))
    (console_error "Erreur sauvegarde cache:").

(** *** Component state *)

Record Screen : Type := mkScreen {
  allProducts : list Product;
  feedProducts : list Product;
  page : Z;
  hasMore : bool;
  loading : bool;
  loadingMore : bool;
  shops : list Shop;
  trendingProducts : list Product;
  selectedCategory : option string;
  isCacheLoaded : bool
}.

Definition setAllProducts (f : list Product → list Product) (s : Screen) : Screen :=
  mkScreen (f (allProducts s)) (feedProducts s) (page s) (hasMore s) (loading s)
    (loadingMore s) (shops s) (trendingProducts s) (selectedCategory s)
    (isCacheLoaded s).

Definition setFeedProducts (f : list Product → list Product) (s : Screen) : Screen :=
  mkScreen (allProducts s) (f (feedProducts s)) (page s) (hasMore s) (loading s)
    (loadingMore s) (shops s) (trendingProducts s) (selectedCategory s)
    (isCacheLoaded s).

Definition setPage (n : Z) (s : Screen) : Screen :=
  mkScreen (allProducts s) (feedProducts s) n (hasMore s) (loading s)
    (loadingMore s) (shops s) (trendingProducts s) (selectedCategory s)
    (isCacheLoaded s).

Definition setHasMore (b : bool) (s : Screen) : Screen :=
  mkScreen (allProducts s) (feedProducts s) (page s) b (loading s)
    (loadingMore s) (shops s) (trendingProducts s) (selectedCategory s)
    (isCacheLoaded s).

Definition setLoading (b : bool) (s : Screen) : Screen :=
  mkScreen (allProducts s) (feedProducts s) (page s) (hasMore s) b
    (loadingMore s) (shops s) (trendingProducts s) (selectedCategory s)
    (isCacheLoaded s).

Definition setLoadingMore (b : bool) (s : Screen) : Screen :=
  mkScreen (allProducts s) (feedProducts s) (page s) (hasMore s) (loading s)
    b (shops s) (trendingProducts s) (selectedCategory s) (isCacheLoaded s).

Definition setShops (l : list Shop) (s : Screen) : Screen :=
  mkScreen (allProducts s) (feedProducts s) (page s) (hasMore s) (loading s)
    (loadingMore s) l (trendingProducts s) (selectedCategory s)
    (isCacheLoaded s).

Definition setTrendingProducts (l : list Product) (s : Screen) : Screen :=
  mkScreen (allProducts s) (feedProducts s) (page s) (hasMore s) (loading s)
    (loadingMore s) (shops s) l (selectedCategory s) (isCacheLoaded s).

Definition setIsCacheLoaded (b : bool) (s : Screen) : Screen :=
  mkScreen (allProducts s) (feedProducts s) (page s) (hasMore s) (loading s)
    (loadingMore s) (shops s) (trendingProducts s) (selectedCategory s) b.

(** The state of [useState] at mount. *)
Definition mounted : Screen :=
  mkScreen [] [] 1 true true false [] [] None false.

(** *** Initial render from the cache

    The first half of [loadInitialData]: the part that runs before the
    network refresh is launched. *)
Definition loadInitialData (ui : Screen) : IO Disk Screen :=
  cached ← loadCache;
  match cached with
  | Some c =>
      mret (setLoading false
        (setIsCacheLoaded true
          (setTrendingProducts (cache_trending c)
            (setShops (cache_shops c)
              (setFeedProducts (λ _, Js.slice 0 ITEMS_PER_PAGE (cache_products c))
                (setAllProducts (λ _, cache_products c) ui))))))
  | None => mret ui
  end.

(** *** Backend replies *)

(** One element of [data.products] as the backend sends it; [raw_id] is
    [p.id.toString()]. *)
Record RawProduct : Type := mkRawProduct {
  raw_id : string;
  raw_title : option string;
  raw_price : option Q;
  raw_image_urls : option (list string);
  raw_isLiked : bool;
  raw_seller_name : option string
}.

Record ProductsBody : Type := mkProductsBody {
  success : bool;
  products : option (list RawProduct);
  totalPages : option Z
}.

(** What [await fetch(url)] followed by [await response.json()] can do:
    the request fails, the body is not JSON, or a body is decoded. *)
Inductive Reply : Type :=
| NetworkError
| BadJson
| Body (b : ProductsBody).

Definition response_json (r : Reply) : IO Disk ProductsBody :=
  match r with
  | Body b => mret b
  | NetworkError | BadJson => throw
  end.

(** The query parameters built at the head of [fetchProducts]. *)
Record Request : Type := mkRequest {
  req_page : Z;
  req_limit : Z;
  req_category : option string
}.

Definition params (pageNum : Z) (category : option string) : Request :=
  mkRequest pageNum (if pageNum =? 1 then INITIAL_LIMIT else ITEMS_PER_PAGE)
            category.

Definition formatProducts (rawProducts : list RawProduct) : list Product :=
  map (λ p,
    {| p_id := raw_id p;
       p_title := Js.or_else (default "" (raw_title p)) "Sans titre";
       p_price := default 0%Q (raw_price p);
       p_images := default [] (raw_image_urls p);
       p_isLiked := raw_isLiked p;
       p_seller :=
         mkSeller (Js.or_else (default "" (raw_seller_name p)) "Vendeur inconnu") |})
    rawProducts.

Definition set_isLiked (b : bool) (p : Product) : Product :=
  mkProduct (p_id p) (p_title p) (p_price p) (p_images p) b (p_seller p).

(** [[a[i], a[j]] = [a[j], a[i]]]. *)
Definition swap {A : Type} (i j : nat) (a : list A) : list A :=
  match a !! i, a !! j with
  | Some x, Some y => <[i := y]> (<[j := x]> a)
  | _, _ => a
  end.

(** The loop of [shuffleArray], from index [i] down to 1.  [rnd i] is the
    draw of [Math.random()] at index [i], already scaled:
    [Math.floor(Math.random() * (i + 1))] is [rnd i mod (i + 1)]. *)
Fixpoint shuffle_from {A : Type} (rnd : nat → nat) (i : nat) (a : list A) : list A :=
  match i with
  | O => a
  | S i' => shuffle_from rnd i' (swap i (rnd i mod (i + 1))%nat a)
  end.

Definition shuffleArray {A : Type} (rnd : nat → nat) (array : list A) : list A :=
  shuffle_from rnd (length array - 1)%nat array.

(** The updater passed to [setAllProducts] and [setFeedProducts] for a
    page after the first: items whose id is already in [prev] are
    dropped. *)
Definition appendNew (products prev : list Product) : list Product :=
  let existingIds : gset string := list_to_set (map p_id prev) in
  let newProducts := filter (λ p, p_id p ∉ existingIds) products in
  prev ++ newProducts.

(** [fetchProducts(pageNum, shouldShuffle)] from the point where the
    request built by [params] has been sent: [reply] is what the network
    gives back. *)
Definition fetchProducts (pageNum : Z) (shouldShuffle : bool)
    (reply : Reply) (rnd : nat → nat) (ui : Screen) : IO Disk Screen :=
  try_catch
    (data ← response_json reply;
     if success data then
       products ← mapM (λ p, liked ← isFavorite (p_id p); mret (set_isLiked liked p))
                       (formatProducts (default [] (products data)));
       let products := if shouldShuffle then shuffleArray rnd products else products in
       ui' ← (if pageNum =? 1 then
                saveCache products (shops ui) (trendingProducts ui);;
                mret (setFeedProducts (λ _, Js.slice 0 ITEMS_PER_PAGE products)
                       (setAllProducts (λ _, products) ui))
              else
                mret (setFeedProducts (appendNew products)
                       (setAllProducts (appendNew products) ui)));
       mret (setHasMore (pageNum <? Js.num_or_else (totalPages data) 1)
              (setPage pageNum ui'))
     else mret ui)
    (console_error "Erreur fetchProducts:";; mret ui).

(** *** The feed as a reactive system

    [inflight] lists the requests that have been sent and not yet answered,
    oldest first. *)
Record App : Type := mkApp {
  ui : Screen;
  world : World Disk;
  inflight : list Request
}.

(** [loadMoreProducts]: the handler of [onEndReached], up to the point
    where the request has been sent. *)
Definition loadMoreProducts (a : App) : App :=
  if negb (loadingMore (ui a)) && hasMore (ui a) then
    mkApp (setLoadingMore true (ui a)) (world a)
          (inflight a ++ [params (page (ui a) + 1) (selectedCategory (ui a))])
  else a.

(** The oldest request sent by [loadMoreProducts] is answered: the rest of
    [fetchProducts(page + 1, false)] runs, then
    [.finally(() => setLoadingMore(false))]. *)
Definition settle (reply : Reply) (rnd : nat → nat) (a : App) : App :=
  match inflight a with
  | req :: rest =>
      let '(r, w) := fetchProducts (req_page req) false reply rnd (ui a) (world a) in
      let ui' := match r with Resolved s => s | Rejected => ui a end in
      mkApp (setLoadingMore false ui') w rest
  | [] => a
  end.

Inductive Event : Type :=
| EndReached
| Settle (reply : Reply) (rnd : nat → nat).

Definition step (a : App) (e : Event) : App :=
  match e with
  | EndReached => loadMoreProducts a
  | Settle reply rnd => settle reply rnd a
  end.

Definition run (a : App) (es : list Event) : App := foldl step a es.

(** One complete "load more": the trigger, then the reply. *)
Definition loadMore_and_wait (a : App) (reply : Reply) : App :=
  settle reply (λ _, O) (loadMoreProducts a).

(** *** The heart of a product card and the category chips *)

(** [loadFavoritesCount]: the value given to [setFavoritesCount]. *)
Definition loadFavoritesCount : IO Disk Z :=
  favs ← getFavorites;
  mret (Z.of_nat (length favs)).

(** The updater [prev.map(p => p.id === id ? { ...p, isLiked } : p)]. *)
Definition markLiked (id : string) (liked : bool) (prev : list Product) : list Product :=
  map (λ p, if bool_decide (p_id p = id) then set_isLiked liked p else p) prev.

(** [toggleFavorite(product)]: resolves with the new screen and the new
    value of [favoritesCount]. *)
Definition toggleFavorite (product : Product) (ui : Screen) : IO Disk (Screen * Z) :=
  isFav ← isFavorite (p_id product);
  (if isFav then removeFavorite (p_id product) else addFavorite product);;
  let ui' :=
    setTrendingProducts (markLiked (p_id product) (negb isFav) (trendingProducts ui))
      (setFeedProducts (markLiked (p_id product) (negb isFav))
        (setAllProducts (markLiked (p_id product) (negb isFav)) ui)) in
  count ← loadFavoritesCount;
  mret (ui', count).

Definition setSelectedCategory (c : option string) (s : Screen) : Screen :=
  mkScreen (allProducts s) (feedProducts s) (page s) (hasMore s) (loading s)
    (loadingMore s) (shops s) (trendingProducts s) c (isCacheLoaded s).

(** The request sent by [filterByCategory(categoryName)].  When the chip
    pressed is the selected one, the handler calls [fetchProducts(1, true)]
    of the same render, whose [selectedCategory] is still the value read by
    the test [selectedCategory === categoryName]; [fetchProducts] appends
    it under [if (selectedCategory)], which the empty string fails. *)
Definition filterByCategory_request (categoryName : string) (ui : Screen) : Request :=
  if bool_decide (selectedCategory ui = Some categoryName)
  then params 1 (match selectedCategory ui with
                 | Some EmptyString | None => None
                 | Some c => Some c
                 end)
  else mkRequest 1 INITIAL_LIMIT (Some categoryName).

(** [data.totalPages > 1]: false when [totalPages] is missing. *)
Definition moreThanOnePage (b : ProductsBody) : bool :=
  match totalPages b with
  | Some n => 1 <? n
  | None => false
  end.

(** [filterByCategory(categoryName)] from the point where the request
    [filterByCategory_request] has been sent. *)
Definition filterByCategory (categoryName : string) (reply : Reply)
    (rnd : nat → nat) (ui : Screen) : IO Disk Screen :=
  if bool_decide (selectedCategory ui = Some categoryName) then
    ui' ← fetchProducts 1 true reply rnd (setLoading true (setSelectedCategory None ui));
    mret (setLoading false ui')
  else
    let ui0 := setLoading true (setSelectedCategory (Some categoryName) ui) in
    ui' ← try_catch
      (data ← response_json reply;
       if success data then
         products ← mapM (λ p, liked ← isFavorite (p_id p); mret (set_isLiked liked p))
                         (formatProducts (default [] (products data)));
         mret (setHasMore (moreThanOnePage data)
                (setPage 1
                  (setFeedProducts (λ _, Js.slice 0 ITEMS_PER_PAGE products)
                    (setAllProducts (λ _, products) ui0))))
       else mret ui0)
      (console_error "Erreur filtre catégorie:";; mret ui0);
    mret (setLoading false ui').

End Discover.

(* ===================================================================== *)
(** ** The list screens: all shops and promo products

    [AllShopsScreen] and [PromoProductsScreen] share their cache and
    pagination code word for word, up to the item type and the name of the
    cache key; the shared code is embedded once, over the item type. *)
(* ===================================================================== *)

Module ListScreen.

Definition CACHE_EXPIRY : Z := 5 * 60 * 1000.
Definition ITEMS_PER_PAGE : Z := 5.

Section Items.

Context {Item : Type}.

(** The envelope [{ timestamp, data }]. *)
Record Envelope : Type := mkEnvelope {
  timestamp : Z;
  data : list Item
}.

(** The one storage key of the screen. *)
Definition Disk : Type := option (Text Envelope).

Definition CACHE_KEY (name : string) : Key Disk Envelope :=
  mkKey name (λ d, d) (λ t _, Some t).

Definition loadCache (name : string) : IO Disk (option (list Item)) :=
  try_catch
    (cacheStr ← getItem (CACHE_KEY name);
     match cacheStr with
     | Some text =>
         cache ← JSON_parse text;
         now ← Date_now;
         if now - timestamp cache <? CACHE_EXPIRY
         then mret (Some (data cache))
         else mret None
     | None => mret None
     end)
    (console_error "Erreur chargement cache:";; mret None).

Definition saveCache (name : string) (items : list Item) : IO Disk unit :=
  try_catch
    (now ← Date_now;
     setItem (CACHE_KEY name) (mkEnvelope now items))
    (console_error "Erreur sauvegarde cache:").

Record Screen : Type := mkScreen {
  allItems : list Item;
  displayed : list Item;
  loading : bool;
  loadingMore : bool;
  page : Z;
  hasMore : bool
}.

Definition setAllItems (l : list Item) (s : Screen) : Screen :=
  mkScreen l (displayed s) (loading s) (loadingMore s) (page s) (hasMore s).
Definition setDisplayed (l : list Item) (s : Screen) : Screen :=
  mkScreen (allItems s) l (loading s) (loadingMore s) (page s) (hasMore s).
Definition setLoading (b : bool) (s : Screen) : Screen :=
  mkScreen (allItems s) (displayed s) b (loadingMore s) (page s) (hasMore s).
Definition setLoadingMore (b : bool) (s : Screen) : Screen :=
  mkScreen (allItems s) (displayed s) (loading s) b (page s) (hasMore s).
Definition setPage (n : Z) (s : Screen) : Screen :=
  mkScreen (allItems s) (displayed s) (loading s) (loadingMore s) n (hasMore s).
Definition setHasMore (b : bool) (s : Screen) : Screen :=
  mkScreen (allItems s) (displayed s) (loading s) (loadingMore s) (page s) b.

Definition mounted : Screen := mkScreen [] [] true false 1 true.

Definition applyPagination (items : list Item) (pageNum : Z) (s : Screen) : Screen :=
  let start := 0 in
  let end_ := pageNum * ITEMS_PER_PAGE in
  setHasMore (end_ <? Z.of_nat (length items))
    (setDisplayed (Js.slice start end_ items) s).

Definition loadMore (s : Screen) : Screen :=
  if loadingMore s || negb (hasMore s) then s
  else
    let s1 := setLoadingMore true s in
    let nextPage := page s + 1 in
    let s2 := applyPagination (allItems s) nextPage s1 in
    let s3 := setPage nextPage s2 in
    setLoadingMore false s3.

(** The first half of [loadData]: the render from the cache, before the
    network refresh is launched. *)
Definition loadData (name : string) (s : Screen) : IO Disk Screen :=
  cached ← loadCache name;
  match cached with
  | Some c => mret (setLoading false (applyPagination c 1 (setAllItems c s)))
  | None => mret s
  end.

(** The effect that runs when the query or the full list changes:
    with a blank query the first page is shown again, otherwise the items
    that match the lower-cased query, with pagination switched off. *)
Definition searchEffect (matches : string → Item → bool) (searchQuery : string)
    (s : Screen) : Screen :=
  if bool_decide (Js.trim searchQuery = "") then
    setPage 1 (applyPagination (allItems s) 1 s)
  else
    let query := Js.toLowerCase searchQuery in
    let filtered := filter (λ item, matches query item = true) (allItems s) in
    setHasMore false (setDisplayed filtered s).

End Items.

Arguments Envelope : clear implicits.
Arguments Disk : clear implicits.
Arguments Screen : clear implicits.

End ListScreen.

Module AllShops.

Record Shop : Type := mkShop {
  shop_id : Z;
  shop_nom : string;
  shop_ville : string;
  shop_verified : bool
}.

Definition CACHE_NAME : string := "@all_shops_cache".
Definition loadCache := ListScreen.loadCache (Item := Shop) CACHE_NAME.
Definition saveCache := ListScreen.saveCache (Item := Shop) CACHE_NAME.
Definition applyPagination := ListScreen.applyPagination (Item := Shop).
Definition loadMore := ListScreen.loadMore (Item := Shop).
Definition loadData := ListScreen.loadData (Item := Shop) CACHE_NAME.

(** The body of [GET /boutique/premium/discover/nearby]. *)
Record ShopsBody : Type := mkShopsBody {
  success : bool;
  shops : option (list Shop)
}.

Inductive Reply : Type :=
| NetworkError
| BadJson
| Body (b : ShopsBody).

Definition response_json (r : Reply) : IO (ListScreen.Disk Shop) ShopsBody :=
  match r with
  | Body b => mret b
  | NetworkError | BadJson => throw
  end.

Definition set_verified (b : bool) (shop : Shop) : Shop :=
  mkShop (shop_id shop) (shop_nom shop) (shop_ville shop) b.

(** [fetchShops(lat, lng, showLoading)] from the point where the request
    has been sent.  [saveCache] is started last and not awaited; it never
    rejects and its write is the only storage access of the call. *)
Definition fetchShops (showLoading : bool) (reply : Reply)
    (s : ListScreen.Screen Shop) : IO (ListScreen.Disk Shop) (ListScreen.Screen Shop) :=
  let s0 := if showLoading then ListScreen.setLoading true s else s in
  s1 ← try_catch
    (data ← response_json reply;
     if success data then
       let shopsWithVerified := map (set_verified true) (default [] (shops data)) in
       let shown := applyPagination shopsWithVerified 1
                      (ListScreen.setAllItems shopsWithVerified s0) in
       saveCache shopsWithVerified;;
       mret shown
     else
       mret (ListScreen.setHasMore false
               (ListScreen.setDisplayed [] (ListScreen.setAllItems [] s0))))
    (console_error "Erreur fetchShops:";; mret s0);
  mret (ListScreen.setLoading false s1).

(** The test of the search box: the name or the town contains the query. *)
Definition matches (query : string) (shop : Shop) : bool :=
  Js.includes (Js.toLowerCase (shop_nom shop)) query ||
  Js.includes (Js.toLowerCase (shop_ville shop)) query.

Definition searchEffect := ListScreen.searchEffect (Item := Shop) matches.

End AllShops.

Module PromoProducts.

Record Product : Type := mkProduct {
  p_id : string;
  p_title : string;
  p_price : Q;
  p_isPromotion : bool
}.

Definition CACHE_NAME : string := "@promo_products_cache".
Definition loadCache := ListScreen.loadCache (Item := Product) CACHE_NAME.
Definition saveCache := ListScreen.saveCache (Item := Product) CACHE_NAME.
Definition applyPagination := ListScreen.applyPagination (Item := Product).
Definition loadMore := ListScreen.loadMore (Item := Product).
Definition loadData := ListScreen.loadData (Item := Product) CACHE_NAME.

(** One element of [data.products] of [GET /products]. *)
Record RawProduct : Type := mkRawProduct {
  raw_id : string;
  raw_title : option string;
  raw_price : option Q;
  raw_isPromotion : bool;
  raw_is_boosted : bool
}.

Record ProductsBody : Type := mkProductsBody {
  success : bool;
  products : option (list RawProduct)
}.

Inductive Reply : Type :=
| NetworkError
| BadJson
| Body (b : ProductsBody).

Definition response_json (r : Reply) : IO (ListScreen.Disk Product) ProductsBody :=
  match r with
  | Body b => mret b
  | NetworkError | BadJson => throw
  end.

(** The promotions kept from a page: [filter] then [map]. *)
Definition promosOf (l : list RawProduct) : list Product :=
  map (λ p,
    {| p_id := raw_id p;
       p_title := Js.or_else (default "" (raw_title p)) "";
       p_price := default 0%Q (raw_price p);
       p_isPromotion := raw_isPromotion p || raw_is_boosted p |})
    (filter (λ p, raw_isPromotion p || raw_is_boosted p = true) l).

(** [fetchPromoProducts(showLoading)] from the point where the request has
    been sent.  [saveCache] is started last and not awaited; it never
    rejects and its write is the only storage access of the call. *)
Definition fetchPromoProducts (showLoading : bool) (reply : Reply)
    (s : ListScreen.Screen Product) :
    IO (ListScreen.Disk Product) (ListScreen.Screen Product) :=
  let s0 := if showLoading then ListScreen.setLoading true s else s in
  s1 ← try_catch
    (data ← response_json reply;
     if success data then
       let promos := promosOf (default [] (products data)) in
       let shown := applyPagination promos 1 (ListScreen.setAllItems promos s0) in
       saveCache promos;;
       mret shown
     else
       mret (ListScreen.setHasMore false
               (ListScreen.setDisplayed [] (ListScreen.setAllItems [] s0))))
    (console_error "Erreur fetchPromoProducts:";; mret s0);
  mret (ListScreen.setLoading false s1).

(** The test of the search box: the title contains the query. *)
Definition matches (query : string) (p : Product) : bool :=
  Js.includes (Js.toLowerCase (p_title p)) query.

Definition searchEffect := ListScreen.searchEffect (Item := Product) matches.

End PromoProducts.

(* ===================================================================== *)
(** ** Advanced search screen ([app/Favoris.tsx], RechercheAvancee) *)
(* ===================================================================== *)

Module Recherche.

Record Product : Type := mkProduct {
  p_id : Z;
  p_title : string;
  p_images : list string;
  p_views : Z;
  p_likes : Z;
  p_shares : Z
}.

(** [images] as the backend sends it: missing, an array, or one string of
    comma-separated URLs. *)
Inductive RawImages : Type :=
| NoImages
| ImageArray (l : list string)
| ImageString (s : string).

Record RawProduct : Type := mkRawProduct {
  raw_id : Z;
  raw_title : string;
  raw_images : RawImages;
  raw_views : option Z;
  raw_views_count : option Z;
  raw_likes : option Z;
  raw_likes_count : option Z;
  raw_shares : option Z;
  raw_shares_count : option Z
}.

Record SearchData : Type := mkSearchData {
  results : list RawProduct;
  data_page : Z;
  total_pages : Z
}.

Record SearchResult : Type := mkSearchResult {
  success : bool;
  data : SearchData
}.

Inductive Failure : Type := Timeout | NotFound | OtherFailure.

Inductive Reply : Type :=
| Failed (f : Failure)
| Body (b : SearchResult).

(** The key of the search history. *)
Definition Disk : Type := option (Text (list string)).

Definition HISTORY_KEY : Key Disk (list string) :=
  mkKey "shopnet_search_history_white" (λ d, d) (λ t _, Some t).

Record Screen : Type := mkScreen {
  searchQuery : string;
  isSearching : bool;
  products : list Product;
  searchHistory : list string;
  loading : bool;
  refreshing : bool;
  page : Z;
  hasMore : bool;
  error : option string
}.

Definition setIsSearching (b : bool) (s : Screen) : Screen :=
  mkScreen (searchQuery s) b (products s) (searchHistory s) (loading s)
    (refreshing s) (page s) (hasMore s) (error s).
Definition setProducts (f : list Product → list Product) (s : Screen) : Screen :=
  mkScreen (searchQuery s) (isSearching s) (f (products s)) (searchHistory s)
    (loading s) (refreshing s) (page s) (hasMore s) (error s).
Definition setSearchHistory (h : list string) (s : Screen) : Screen :=
  mkScreen (searchQuery s) (isSearching s) (products s) h (loading s)
    (refreshing s) (page s) (hasMore s) (error s).
Definition setLoading (b : bool) (s : Screen) : Screen :=
  mkScreen (searchQuery s) (isSearching s) (products s) (searchHistory s) b
    (refreshing s) (page s) (hasMore s) (error s).
Definition setRefreshing (b : bool) (s : Screen) : Screen :=
  mkScreen (searchQuery s) (isSearching s) (products s) (searchHistory s)
    (loading s) b (page s) (hasMore s) (error s).
Definition setPage (n : Z) (s : Screen) : Screen :=
  mkScreen (searchQuery s) (isSearching s) (products s) (searchHistory s)
    (loading s) (refreshing s) n (hasMore s) (error s).
Definition setHasMore (b : bool) (s : Screen) : Screen :=
  mkScreen (searchQuery s) (isSearching s) (products s) (searchHistory s)
    (loading s) (refreshing s) (page s) b (error s).
Definition setError (e : option string) (s : Screen) : Screen :=
  mkScreen (searchQuery s) (isSearching s) (products s) (searchHistory s)
    (loading s) (refreshing s) (page s) (hasMore s) e.

(** The state of [useState] at mount, with the query typed so far. *)
Definition mounted (query : string) : Screen :=
  mkScreen query false [] [] false false 1 true None.

(** *** Search history *)

Definition loadSearchHistory (s : Screen) : IO Disk Screen :=
  try_catch
    (history ← getItem HISTORY_KEY;
     match history with
     | Some text =>
         h ← JSON_parse text;
         mret (setSearchHistory (Js.slice 0 10 h) s)
     | None => mret s
     end)
    (console_error "Erreur chargement historique:";; mret s).

(** The new history computed by [saveSearchHistory]. *)
Definition updatedHistory (query : string) (history : list string) : list string :=
  Js.slice 0 10
    (Js.trim query ::
     filter (λ item, Js.toLowerCase item ≠ Js.toLowerCase (Js.trim query)) history).

(** [setSearchHistory] runs before the write, so the state keeps the new
    history also when the write is rejected. *)
Definition saveSearchHistory (query : string) (s : Screen) : IO Disk Screen :=
  if bool_decide (Js.trim query = "") then mret s
  else
    let updated := updatedHistory query (searchHistory s) in
    try_catch (setItem HISTORY_KEY updated)
              (console_error "Erreur sauvegarde historique:");;
    mret (setSearchHistory updated s).

(** *** Result pages *)

Definition placeholder : string := "https://via.placeholder.com/150".

Fixpoint split (sep : ascii) (s : string) : list string :=
  match s with
  | EmptyString => [EmptyString]
  | String c s' =>
      if bool_decide (c = sep) then EmptyString :: split sep s'
      else match split sep s' with
           | h :: t => String c h :: t
           | [] => [String c EmptyString]
           end
  end.

Definition keepImage (img : string) : Prop := img ≠ "" ∧ Js.trim img ≠ "".

#[export] Instance keepImage_dec img : Decision (keepImage img).
Proof. unfold keepImage. apply _. Defined.

Definition processImages (images : RawImages) : list string :=
  match images with
  | NoImages => [placeholder]
  | ImageArray l => filter keepImage l
  | ImageString s =>
      if bool_decide (s = "") then [placeholder]
      else filter keepImage (split "," s)
  end.

(** [a || b || 0] on counters that may be missing. *)
Definition counter (a b : option Z) : Z :=
  Js.num_or_else a (Js.num_or_else b 0).

Definition process (product : RawProduct) : Product :=
  {| p_id := raw_id product;
     p_title := raw_title product;
     p_images := processImages (raw_images product);
     p_views := counter (raw_views product) (raw_views_count product);
     p_likes := counter (raw_likes product) (raw_likes_count product);
     p_shares := counter (raw_shares product) (raw_shares_count product) |}.

Definition response_json (r : Reply) : IO Disk SearchResult :=
  match r with
  | Body b => mret b
  | Failed _ => throw
  end.

Definition errorMessage (r : Reply) : string :=
  match r with
  | Failed Timeout => "La recherche a pris trop de temps"
  | Failed NotFound => "Service de recherche indisponible"
  | _ => "Erreur lors de la recherche"
  end.

(** The page number put in the request. *)
Definition requestedPage (reset : bool) (s : Screen) : Z :=
  if reset then 1 else page s.

(** [handleSearch(query, reset)], with [reply] the answer to the request
    for page [requestedPage reset s].  The shops section filled by
    [fetchNearbyShops] is left out: it has its own state and handler. *)
Definition handleSearch (query : string) (reset : bool) (reply : Reply)
    (s : Screen) : IO Disk Screen :=
  if bool_decide (Js.trim query = "") then mret s
  else
    let s1 :=
      if reset then
        setProducts (λ _, []) (setHasMore true (setPage 1
          (setError None (setIsSearching true s))))
      else setLoading true s in
    s2 ← try_catch
      (d ← response_json reply;
       if success d then
         let processedResults := map process (results (data d)) in
         let currentPage := data_page (data d) in
         let s' :=
           if reset then setProducts (λ _, processedResults) s1
           else setProducts (λ prev, prev ++ processedResults) s1 in
         saveSearchHistory query
           (setPage (currentPage + 1)
             (setHasMore (currentPage <? total_pages (data d)) s'))
       else mret s1)
      (console_error "Erreur recherche:";;
       mret (setError (Some (errorMessage reply)) s1));
    mret (setRefreshing false (setLoading false (setIsSearching false s2))).

(** [handleLoadMore], the handler of [onEndReached]. *)
Definition handleLoadMore (reply : Reply) (s : Screen) : IO Disk Screen :=
  if negb (loading s) && hasMore s && (0 <? Z.of_nat (String.length (searchQuery s)))
  then handleSearch (searchQuery s) false reply s
  else mret s.

(** [AsyncStorage.removeItem] on the key of the history. *)
Definition removeHistory : IO Disk unit :=
  λ w, if faulty w then (Rejected, w)
       else (Resolved tt, mkWorld None (faulty w) (clock w) (console w)).

(** The "Effacer" button of [clearSearchHistory]: the state is emptied
    at once, then the key is removed; nothing catches a rejected removal,
    so the outcome of the removal is returned beside the new state. *)
Definition clearSearchHistory (s : Screen) : Screen * IO Disk unit :=
  (setSearchHistory [] s, removeHistory).

End Recherche.

(* ===================================================================== *)
(** ** Shop detail screen: the product list of one shop *)
(* ===================================================================== *)

Module ShopDetail.

Record Product : Type := mkProduct {
  p_id : string;
  p_title : string;
  p_price : Q;
  p_stock : Z
}.

Record Pagination : Type := mkPagination {
  pg_page : Z;
  pg_totalPages : Z
}.

Record ShopBody : Type := mkShopBody {
  success : bool;
  boutique_nom : string;
  seller_nom : string;
  body_products : list Product;
  pagination : Pagination;
  message : option string
}.

Inductive Reply : Type :=
| NetworkError
| Body (b : ShopBody).

Record Screen : Type := mkScreen {
  loading : bool;
  boutique : option string;
  seller : option string;
  products : list Product;
  page : Z;
  totalPages : Z;
  loadingMore : bool;
  refreshing : bool;
  toast : option string
}.

Definition mounted : Screen :=
  mkScreen true None None [] 1 1 false false None.

Definition setLoadingMore (b : bool) (s : Screen) : Screen :=
  mkScreen (loading s) (boutique s) (seller s) (products s) (page s)
    (totalPages s) b (refreshing s) (toast s).

Definition showToast (msg : string) (s : Screen) : Screen :=
  mkScreen (loading s) (boutique s) (seller s) (products s) (page s)
    (totalPages s) (loadingMore s) (refreshing s) (Some msg).

(** The [finally] block of [fetchShopData]. *)
Definition finish (s : Screen) : Screen :=
  mkScreen false (boutique s) (seller s) (products s) (page s)
    (totalPages s) false false (toast s).

(** [fetchShopData(pageNum, shouldReset)] from the point where the request
    for page [pageNum] has been sent.  The screen has no storage key. *)
Definition fetchShopData (pageNum : Z) (shouldReset : bool) (reply : Reply)
    (s : Screen) : IO unit Screen :=
  let s0 := if pageNum =? 1
            then mkScreen true (boutique s) (seller s) (products s) (page s)
                   (totalPages s) (loadingMore s) (refreshing s) (toast s)
            else s in
  s1 ← (match reply with
        | Body d =>
            if success d then
              mret (mkScreen (loading s0) (Some (boutique_nom d))
                      (Some (seller_nom d))
                      (if shouldReset then body_products d
                       else products s0 ++ body_products d)
                      (pg_page (pagination d)) (pg_totalPages (pagination d))
                      (loadingMore s0) (refreshing s0) (toast s0))
            else
              mret (showToast
                      (Js.or_else (default "" (message d))
                         "Impossible de charger la boutique") s0)
        | NetworkError =>
            console_error "Erreur fetch shop:";;
            mret (showToast "Problème de connexion" s0)
        end);
  mret (finish s1).

(** [loadMore], the handler of [onEndReached]. *)
Definition loadMore (reply : Reply) (s : Screen) : IO unit Screen :=
  if (page s <? totalPages s) && negb (loadingMore s)
  then fetchShopData (page s + 1) false reply (setLoadingMore true s)
  else mret s.

(** [formatPhoneNumber(phone)] of the shop detail screen: a leading 0 is
    replaced by 243, then a number of nine digits or fewer is given the
    prefix 243. *)
Definition formatPhoneNumber (phone : string) : string :=
  let cleaned := Js.digitsOnly phone in
  let cleaned := if Js.startsWith cleaned "0"
                 then "243" +:+ Js.substring1 cleaned else cleaned in
  if (String.length cleaned <=? 9)%nat then "243" +:+ cleaned else cleaned.

End ShopDetail.

(* ===================================================================== *)
(** ** Product detail screen: the heart button
       ([app/Favoris.tsx], ProductDetail) *)
(* ===================================================================== *)

Module ProductDetail.

Record ProductDetail : Type := mkProductDetail {
  p_id : string;
  p_title : string;
  p_price : Q;
  p_images : list string
}.

Record Seller : Type := mkSeller { seller_nom : string }.

(** The snapshot pushed in front of the favourites. *)
Definition snapshot (product : ProductDetail) (seller : option Seller) (now : Z) :
    Discover.FavoriteItem :=
  {| Discover.fav_id := p_id product;
     Discover.fav_title := p_title product;
     Discover.fav_price := p_price product;
     Discover.fav_image := Js.or_else (default "" (head (p_images product))) "";
     Discover.fav_sellerName :=
       Js.or_else (default "" (seller_nom <$> seller)) "Vendeur";
     Discover.fav_addedAt := now |}.

(** [checkIfFavorite(productId)]: the new value of the [isFavorite] flag of
    the screen; the flag is left alone when the key is absent or the read
    fails. *)
Definition checkIfFavorite (productId : string) (isFavorite : bool) :
    IO Discover.Disk bool :=
  try_catch
    (favorites ← getItem Discover.FAVORITES_STORAGE_KEY;
     match favorites with
     | Some text =>
         favs ← JSON_parse text;
         mret (Js.some (λ f, bool_decide (Discover.fav_id f = productId)) favs)
     | None => mret isFavorite
     end)
    (console_error "Erreur vérification favori:";; mret isFavorite).

(** [toggleFavorite()]: decides by the flag of the screen, not by the
    stored list; resolves with the new value of the flag. *)
Definition toggleFavorite (product : option ProductDetail) (seller : option Seller)
    (isFavorite : bool) : IO Discover.Disk bool :=
  match product with
  | None => mret isFavorite
  | Some product =>
      try_catch
        (favorites ← getItem Discover.FAVORITES_STORAGE_KEY;
         favs ← match favorites with
                | Some text => JSON_parse text
                | None => mret []
                end;
         favs' ← (if isFavorite
                  then mret (filter (λ f, Discover.fav_id f ≠ p_id product) favs)
                  else now ← Date_now; mret (snapshot product seller now :: favs));
         setItem Discover.FAVORITES_STORAGE_KEY favs';;
         mret (negb isFavorite))
        (console_error "Erreur toggle favori:";; mret isFavorite)
  end.

(** [formatPhoneNumber(phone)] of the product detail screen. *)
Definition formatPhoneNumber (phone : string) : string :=
  let cleaned := Js.digitsOnly (Js.trim phone) in
  if Js.startsWith cleaned "0" then "243" +:+ Js.substring1 cleaned else cleaned.

End ProductDetail.

(* ===================================================================== *)
(** ** Favourites screen ([app/Favoris.tsx], FavorisScreen)

    The screen reads and writes the key of the ledger; its state is the
    list it shows. *)
(* ===================================================================== *)

Module FavorisScreen.


(** [removeFavorite(id)]: filters the list shown, writes it, then shows
    it. *)
Definition removeFavorite (id : string) (favorites : list Discover.FavoriteItem) :
    IO Discover.Disk (list Discover.FavoriteItem) :=
  try_catch
    (let updated := filter (λ item, Discover.fav_id item ≠ id) favorites in
     setItem Discover.FAVORITES_STORAGE_KEY updated;;
     mret updated)
    (console_error "Erreur suppression favori:";; mret favorites).

End FavorisScreen.

(* ===================================================================== *)
(** ** Observations used in the statements *)
(* ===================================================================== *)

Module Observe.

(** A device whose storage answers: disk [d], time [now], console [out]. *)
Definition working {D : Type} (d : D) (now : Z) (out : list string) : World D :=
  mkWorld d false now out.

(** The favourites a reader of ['@shopnet_favorites'] decodes. *)
Definition stored (d : Discover.Disk) : list Discover.FavoriteItem :=
  match Discover.favorites_text d with
  | Some (Json l) => l
  | Some Malformed | None => []
  end.


(** [n] minutes in the unit of [Date.now()]. *)
Definition minutes (n : Z) : Z := n * 60 * 1000.

(** What [getFavorites] yields on a world. *)
Definition ledger (w : World Discover.Disk) : list Discover.FavoriteItem :=
  if faulty w then [] else stored (disk w).

(** The membership test of [addFavorite] and [isFavorite]. *)
Definition has (id : string) (l : list Discover.FavoriteItem) : bool :=
  Js.some (λ fav, bool_decide (Discover.fav_id fav = id)) l.

(** The discover screen once the cached envelope [c] has been rendered. *)
Definition rendered (c : Discover.CacheData) (s : Discover.Screen) : Discover.Screen :=
  Discover.setLoading false
    (Discover.setIsCacheLoaded true
      (Discover.setTrendingProducts (Discover.cache_trending c)
        (Discover.setShops (Discover.cache_shops c)
          (Discover.setFeedProducts (λ _, take 10 (Discover.cache_products c))
            (Discover.setAllProducts (λ _, Discover.cache_products c) s))))).

(** The searches of a session saved one after the other. *)
Fixpoint saveAll (queries : list string) (s : Recherche.Screen) :
    IO Recherche.Disk Recherche.Screen :=
  match queries with
  | [] => mret s
  | q :: rest => s' ← Recherche.saveSearchHistory q s; saveAll rest s'
  end.

(** The comparison key of a query in the history. *)
Definition key (query : string) : string := Js.toLowerCase (Js.trim query).

(** One insertion into the history, on the list. *)
Definition inserted (q : string) (h : list string) : list string :=
  take 10 (Js.trim q :: filter (λ item, Js.toLowerCase item ≠ key q) h).

(** The history after the queries [qs], applied oldest first. *)
Definition historyAfter (qs : list string) (h : list string) : list string :=
  foldl (λ acc q, inserted q acc) h qs.

(** A reply that counts as a failure of the product request: the request
    or the decoding throws, or the body says [success: false]. *)
Definition failed (reply : Discover.Reply) : bool :=
  match reply with
  | Discover.Body b => negb (Discover.success b)
  | Discover.NetworkError | Discover.BadJson => true
  end.

(** Whether the failure reaches the [catch] block. *)
Definition thrown (reply : Discover.Reply) : bool :=
  match reply with
  | Discover.Body _ => false
  | Discover.NetworkError | Discover.BadJson => true
  end.

(** The world after [lines] have been written to the console. *)
Definition logged {D : Type} (lines : list string) (w : World D) : World D :=
  mkWorld (disk w) (faulty w) (clock w) (console w ++ lines).

(** The products of a decoded page, formatted and marked with the
    favourites of the world. *)
Definition pageProducts (b : Discover.ProductsBody) (w : World Discover.Disk) :
    list Discover.Product :=
  map (λ p, Discover.set_isLiked (has (Discover.p_id p) (ledger w)) p)
      (Discover.formatProducts (default [] (Discover.products b))).

(** The identifiers sent in a page. *)
Definition pageIds (b : Discover.ProductsBody) : list string :=
  map Discover.raw_id (default [] (Discover.products b)).

(** A run of complete "load more" rounds, one reply per round. *)
Definition loadPages (a : Discover.App) (replies : list Discover.Reply) : Discover.App :=
  foldl Discover.loadMore_and_wait a replies.

(** Every page of the run that is decoded carries each identifier once. *)
Definition pagesUnique (replies : list Discover.Reply) : Prop :=
  Forall (λ r, match r with
               | Discover.Body b => NoDup (pageIds b)
               | _ => True
               end) replies.


(** The identifiers shown by a list of the feed. *)
Definition ids (l : list Discover.Product) : list string := map Discover.p_id l.

(** Neither list of the feed shows an identifier twice. *)
Definition feedUnique (s : Discover.Screen) : Prop :=
  NoDup (ids (Discover.allProducts s)) ∧ NoDup (ids (Discover.feedProducts s)).

(** The screen a computation resolves with, [s] when it rejects. *)
Definition screenAfter {D S : Type} (m : IO D S) (w : World D) (s : S) : S :=
  match result m w with
  | Resolved s' => s'
  | Rejected => s
  end.

(** Every code unit of [s] is a digit. *)
Fixpoint allDigits (s : string) : bool :=
  match s with
  | String c s' => Js.is_digit c && allDigits s'
  | EmptyString => true
  end.

(** A list screen in step with its page counter: it shows the first
    [5 * page] items of the full list, [hasMore] tells whether items are
    left, and no "load more" is running. *)
Definition paged {Item : Type} (s : ListScreen.Screen Item) : Prop :=
  1 ≤ ListScreen.page s ∧
  ListScreen.loadingMore s = false ∧
  ListScreen.displayed s
    = take (Z.to_nat (5 * ListScreen.page s)) (ListScreen.allItems s) ∧
  ListScreen.hasMore s
    = (5 * ListScreen.page s <? Z.of_nat (length (ListScreen.allItems s))).

End Observe.

Import Observe.

(* ===================================================================== *)
(** ** Facts about the JavaScript primitives *)
(* ===================================================================== *)

Section SliceFacts.

Context {A : Type}.
Implicit Types l : list A.

Lemma slice_prefix (n : Z) l :
  0 ≤ n → Js.slice 0 n l = take (Z.to_nat n) l.
Proof.
  intros Hn. unfold Js.slice, Js.relative.
  replace (0 <? 0) with false by reflexivity.
  destruct (n <? 0) eqn:E; [apply Z.ltb_lt in E; lia|].
  rewrite (Z.min_l 0) by lia. simpl (Z.to_nat 0). rewrite drop_0.
  destruct (Z.le_gt_cases n (Z.of_nat (length l))) as [Hle|Hgt].
  - rewrite Z.min_l by lia. f_equal. lia.
  - rewrite Z.min_r by lia. rewrite Z.sub_0_r, Nat2Z.id.
    rewrite !take_ge; [done|lia|lia].
Qed.

Lemma some_true_iff (f : A → bool) l :
  Js.some f l = true ↔ ∃ x, x ∈ l ∧ f x = true.
Proof.
  unfold Js.some. rewrite existsb_exists.
  split; intros (x & Hx & Hf); exists x; split; auto;
    by apply list_elem_of_In.
Qed.

Lemma some_false_iff (f : A → bool) l :
  Js.some f l = false ↔ ∀ x, x ∈ l → f x = false.
Proof.
  rewrite <- not_true_iff_false, some_true_iff. split.
  - intros H x Hx. destruct (f x) eqn:E; [|done]. destruct H; eauto.
  - intros H (x & Hx & Hf). rewrite (H x Hx) in Hf. discriminate.
Qed.

End SliceFacts.

(* ===================================================================== *)
(** ** The favourites ledger *)
(* ===================================================================== *)

Section Ledger.

Import Discover.

Implicit Types (w : World Disk) (d : Disk) (p : Product) (id : string).

Lemma getFavorites_run w : getFavorites w = (Resolved (ledger w), w).
Proof.
  unfold getFavorites, try_catch, mbind, IO_bind, getItem, ledger, stored.
  destruct w as [d [] t c]; simpl; [done|].
  destruct (favorites_text d) as [[|l]|]; reflexivity.
Qed.

Lemma has_true id l : has id l = true ↔ id ∈ map fav_id l.
Proof.
  unfold has. rewrite some_true_iff, list_elem_of_fmap. split.
  - intros (x & Hx & Hb). apply bool_decide_eq_true in Hb. eauto.
  - intros (x & -> & Hx). exists x. split; [done|]. by apply bool_decide_eq_true.
Qed.

Lemma has_false id l : has id l = false ↔ id ∉ map fav_id l.
Proof. rewrite <- has_true. destruct (has id l); split; congruence. Qed.

Lemma isFavorite_run id w :
  isFavorite id w = (Resolved (has id (ledger w)), w).
Proof.
  unfold isFavorite, try_catch, mbind, IO_bind.
  rewrite getFavorites_run. reflexivity.
Qed.

Lemma addFavorite_run p d now out :
  addFavorite p (working d now out) =
  (Resolved tt,
   if has (p_id p) (stored d) then working d now out
   else working (mkDisk (Some (Json (newFav p now :: stored d))) (cache_text d))
                now out).
Proof.
  unfold addFavorite, try_catch, mbind, IO_bind.
  rewrite getFavorites_run. unfold ledger, working; simpl.
  fold (has (p_id p) (stored d)).
  destruct (has (p_id p) (stored d)); reflexivity.
Qed.

Lemma removeFavorite_run id d now out :
  removeFavorite id (working d now out) =
  (Resolved tt,
   working (mkDisk (Some (Json (filter (λ fav, fav_id fav ≠ id) (stored d))))
                   (cache_text d)) now out).
Proof.
  unfold removeFavorite, try_catch, mbind, IO_bind.
  rewrite getFavorites_run. reflexivity.
Qed.



(** The ledger operations keep identifiers unique. *)
Lemma addFavorite_keeps_unique p d now out :
  NoDup (map fav_id (stored d)) →
  NoDup (map fav_id (stored (disk (after (addFavorite p) (working d now out))))).
Proof.
  intros Hnd. unfold after. rewrite addFavorite_run. simpl.
  destruct (has (p_id p) (stored d)) eqn:E; simpl; [done|].
  unfold stored at 1; simpl. apply NoDup_cons. split; [|done].
  by apply has_false.
Qed.

Lemma removeFavorite_keeps_unique id d now out :
  NoDup (map fav_id (stored d)) →
  NoDup (map fav_id (stored (disk (after (removeFavorite id) (working d now out))))).
Proof.
  intros Hnd. unfold after. rewrite removeFavorite_run. simpl.
  unfold stored at 1; simpl. generalize (stored d) Hnd. clear.
  induction l as [|x l IH]; simpl; intros Hnd; [constructor|].
  apply NoDup_cons in Hnd as [Hx Hnd]. rewrite filter_cons.
  destruct (decide (fav_id x ≠ id)); [|auto].
  simpl. apply NoDup_cons. split; [|auto].
  intros Hin. apply Hx. apply list_elem_of_fmap in Hin as (y & -> & Hy).
  apply list_elem_of_fmap. exists y. split; [done|].
  by apply list_elem_of_filter in Hy as [_ Hy].
Qed.

End Ledger.

(** C3.  Favourites round trip.  On a device whose storage answers, for
    every product [p] and whatever the favourites key holds at the start
    (nothing, an unparsable text, or any list), after [addFavorite p] the
    membership test [isFavorite p.id] resolves to [true], and after a
    following [removeFavorite p.id] it resolves to [false]. *)
Theorem favorites_add_remove_roundtrip
    (p : Discover.Product) (d : Discover.Disk) (now : Z) (out : list string) :
  let w0 := working d now out in
  let w1 := after (Discover.addFavorite p) w0 in
  let w2 := after (Discover.removeFavorite (Discover.p_id p)) w1 in
  result (Discover.isFavorite (Discover.p_id p)) w1 = Resolved true ∧
  result (Discover.isFavorite (Discover.p_id p)) w2 = Resolved false.
Proof.
  intros w0 w1 w2. subst w0 w1 w2. unfold after, result.
  rewrite addFavorite_run. cbn [fst snd].
  set (id := Discover.p_id p).
  assert (Hrm : ∀ d', has id (ledger (snd (Discover.removeFavorite id
                         (working d' now out)))) = false).
  { intros d'. rewrite removeFavorite_run. simpl.
    apply has_false. intros Hin.
    apply list_elem_of_fmap in Hin as (y & Hy & Hin).
    apply list_elem_of_filter in Hin as [Hne _]. congruence. }
  destruct (has id (stored d)) eqn:E.
  - split.
    + rewrite isFavorite_run. cbn [fst]. unfold ledger, working.
      cbn [faulty disk]. by rewrite E.
    + rewrite isFavorite_run. cbn [fst]. by rewrite Hrm.
  - split.
    + rewrite isFavorite_run. cbn [fst]. f_equal. apply has_true.
      unfold ledger, working, stored. cbn. apply elem_of_cons. by left.
    + rewrite isFavorite_run. cbn [fst]. by rewrite Hrm.
Qed.



(** C10.  [getFavorites] is total and never throws: on every world it
    resolves and leaves the world as it was; when the read is rejected,
    the key is absent or the text does not parse, it resolves to the empty
    list, and [isFavorite] then resolves to [false] for every identifier. *)
Theorem getFavorites_total :
  (∀ w, ∃ l, Discover.getFavorites w = (Resolved l, w)) ∧
  (∀ id w, ∃ b, Discover.isFavorite id w = (Resolved b, w)) ∧
  (∀ d now out,
     let w := mkWorld d true now out in
     Discover.getFavorites w = (Resolved [], w) ∧
     ∀ id, Discover.isFavorite id w = (Resolved false, w)) ∧
  (∀ cache now out,
     let w := working (Discover.mkDisk None cache) now out in
     Discover.getFavorites w = (Resolved [], w) ∧
     ∀ id, Discover.isFavorite id w = (Resolved false, w)) ∧
  (∀ cache now out,
     let w := working (Discover.mkDisk (Some Malformed) cache) now out in
     Discover.getFavorites w = (Resolved [], w) ∧
     ∀ id, Discover.isFavorite id w = (Resolved false, w)).
Proof.
  split; [|split; [|split; [|split]]].
  - intros w. exists (ledger w). apply getFavorites_run.
  - intros id w. eexists. apply isFavorite_run.
  - intros d now out w. split; [apply getFavorites_run|].
    intros id. apply isFavorite_run.
  - intros cache now out w. split; [apply getFavorites_run|].
    intros id. apply isFavorite_run.
  - intros cache now out w. split; [apply getFavorites_run|].
    intros id. apply isFavorite_run.
Qed.

(* ===================================================================== *)
(** ** Cache loaders *)
(* ===================================================================== *)

Section ListCache.

Context {Item : Type}.
Implicit Types (e : ListScreen.Envelope Item) (s : ListScreen.Screen Item).

Lemma list_loadCache_run name e now out :
  let w := working (Some (Json e)) now out in
  ListScreen.loadCache name w =
  (Resolved (if now - ListScreen.timestamp e <? minutes 5
             then Some (ListScreen.data e) else None), w).
Proof.
  intros w. subst w.
  unfold ListScreen.loadCache, try_catch, mbind, IO_bind, getItem, working.
  cbn. change ListScreen.CACHE_EXPIRY with (minutes 5).
  destruct (now - ListScreen.timestamp e <? minutes 5); reflexivity.
Qed.

Lemma list_loadCache_fresh_iff name e now out :
  result (ListScreen.loadCache name) (working (Some (Json e)) now out)
    = Resolved (Some (ListScreen.data e))
  ↔ now - ListScreen.timestamp e < minutes 5.
Proof.
  unfold result. rewrite list_loadCache_run. cbn [fst].
  destruct (now - ListScreen.timestamp e <? minutes 5) eqn:E.
  - apply Z.ltb_lt in E. tauto.
  - apply Z.ltb_ge in E. split; [discriminate|lia].
Qed.

Lemma list_loadData_run name e now out s :
  let w := working (Some (Json e)) now out in
  ListScreen.loadData name s w =
  (Resolved (if now - ListScreen.timestamp e <? minutes 5
             then ListScreen.setLoading false
                    (ListScreen.applyPagination (ListScreen.data e) 1
                       (ListScreen.setAllItems (ListScreen.data e) s))
             else s), w).
Proof.
  intros w. subst w. unfold ListScreen.loadData, mbind, IO_bind.
  rewrite list_loadCache_run.
  destruct (now - ListScreen.timestamp e <? minutes 5); reflexivity.
Qed.

(** The two fixtures of the specification, on a list screen. *)
Lemma list_cache_fixtures name (payload : list Item) now out s :
  let fresh := working (Some (Json (ListScreen.mkEnvelope (now - minutes 4) payload)))
                 now out in
  let stale := working (Some (Json (ListScreen.mkEnvelope (now - minutes 6) payload)))
                 now out in
  ListScreen.loadCache name fresh = (Resolved (Some payload), fresh) ∧
  ListScreen.loadData name s fresh =
    (Resolved (ListScreen.setLoading false
                 (ListScreen.applyPagination payload 1
                    (ListScreen.setAllItems payload s))), fresh) ∧
  ListScreen.loadCache name stale = (Resolved None, stale) ∧
  ListScreen.loadData name s stale = (Resolved s, stale).
Proof.
  intros fresh stale. subst fresh stale.
  rewrite !list_loadCache_run, !list_loadData_run. cbn [ListScreen.timestamp ListScreen.data].
  replace (now - (now - minutes 4) <? minutes 5) with true
    by (symmetry; apply Z.ltb_lt; unfold minutes; lia).
  replace (now - (now - minutes 6) <? minutes 5) with false
    by (symmetry; apply Z.ltb_ge; unfold minutes; lia).
  done.
Qed.

End ListCache.

Section DiscoverCache.

Import Discover.

Lemma discover_loadCache_run favs (c : CacheData) now out :
  let w := working (mkDisk favs (Some (Json c))) now out in
  loadCache w =
  (Resolved (if now - timestamp c <? minutes 5 then Some c else None), w).
Proof.
  intros w. subst w.
  unfold loadCache, try_catch, mbind, IO_bind, getItem, working.
  cbn. change CACHE_EXPIRY with (minutes 5).
  destruct (now - timestamp c <? minutes 5); reflexivity.
Qed.

Lemma discover_loadInitialData_run favs (c : CacheData) now out s :
  let w := working (mkDisk favs (Some (Json c))) now out in
  loadInitialData s w =
  (Resolved (if now - timestamp c <? minutes 5 then rendered c s else s), w).
Proof.
  intros w. subst w. unfold loadInitialData, mbind, IO_bind.
  rewrite discover_loadCache_run.
  destruct (now - timestamp c <? minutes 5); [|reflexivity].
  unfold rendered. rewrite slice_prefix by (unfold ITEMS_PER_PAGE; lia).
  reflexivity.
Qed.

End DiscoverCache.

(** C2.  For the three cache loaders (all shops, promo products, discover
    feed): a stored envelope is returned by [loadCache] if and only if
    [now - timestamp < 5 minutes]; with [timestamp = now - 4 min] the
    payload is returned and the screen is rendered from it, with
    [timestamp = now - 6 min] [loadCache] resolves to [null] and the screen
    is left as it was. *)
Theorem cache_used_iff_younger_than_five_minutes :
  (∀ e now out,
     result AllShops.loadCache (working (Some (Json e)) now out)
       = Resolved (Some (ListScreen.data e))
     ↔ now - ListScreen.timestamp e < minutes 5) ∧
  (∀ payload now out s,
     let fresh := working (Some (Json (ListScreen.mkEnvelope (now - minutes 4) payload)))
                    now out in
     let stale := working (Some (Json (ListScreen.mkEnvelope (now - minutes 6) payload)))
                    now out in
     AllShops.loadCache fresh = (Resolved (Some payload), fresh) ∧
     AllShops.loadData s fresh =
       (Resolved (ListScreen.setLoading false
                    (AllShops.applyPagination payload 1
                       (ListScreen.setAllItems payload s))), fresh) ∧
     AllShops.loadCache stale = (Resolved None, stale) ∧
     AllShops.loadData s stale = (Resolved s, stale)) ∧
  (∀ e now out,
     result PromoProducts.loadCache (working (Some (Json e)) now out)
       = Resolved (Some (ListScreen.data e))
     ↔ now - ListScreen.timestamp e < minutes 5) ∧
  (∀ payload now out s,
     let fresh := working (Some (Json (ListScreen.mkEnvelope (now - minutes 4) payload)))
                    now out in
     let stale := working (Some (Json (ListScreen.mkEnvelope (now - minutes 6) payload)))
                    now out in
     PromoProducts.loadCache fresh = (Resolved (Some payload), fresh) ∧
     PromoProducts.loadData s fresh =
       (Resolved (ListScreen.setLoading false
                    (PromoProducts.applyPagination payload 1
                       (ListScreen.setAllItems payload s))), fresh) ∧
     PromoProducts.loadCache stale = (Resolved None, stale) ∧
     PromoProducts.loadData s stale = (Resolved s, stale)) ∧
  (∀ favs c now out,
     result Discover.loadCache
       (working (Discover.mkDisk favs (Some (Json c))) now out)
       = Resolved (Some c)
     ↔ now - Discover.timestamp c < minutes 5) ∧
  (∀ favs products shops trending now out s,
     let c4 := Discover.mkCacheData (now - minutes 4) products shops trending in
     let c6 := Discover.mkCacheData (now - minutes 6) products shops trending in
     let fresh := working (Discover.mkDisk favs (Some (Json c4))) now out in
     let stale := working (Discover.mkDisk favs (Some (Json c6))) now out in
     Discover.loadCache fresh = (Resolved (Some c4), fresh) ∧
     Discover.loadInitialData s fresh = (Resolved (rendered c4 s), fresh) ∧
     Discover.loadCache stale = (Resolved None, stale) ∧
     Discover.loadInitialData s stale = (Resolved s, stale)).
Proof.
  split; [|split; [|split; [|split; [|split]]]].
  - intros. apply list_loadCache_fresh_iff.
  - intros. apply list_cache_fixtures.
  - intros. apply list_loadCache_fresh_iff.
  - intros. apply list_cache_fixtures.
  - intros favs c now out. unfold result.
    rewrite discover_loadCache_run. cbn [fst].
    destruct (now - Discover.timestamp c <? minutes 5) eqn:E.
    + apply Z.ltb_lt in E. tauto.
    + apply Z.ltb_ge in E. split; [discriminate|lia].
  - intros favs products shops trending now out s c4 c6 fresh stale.
    subst fresh stale.
    rewrite !discover_loadCache_run, !discover_loadInitialData_run.
    subst c4 c6. cbn [Discover.timestamp].
    replace (now - (now - minutes 4) <? minutes 5) with true
      by (symmetry; apply Z.ltb_lt; unfold minutes; lia).
    replace (now - (now - minutes 6) <? minutes 5) with false
      by (symmetry; apply Z.ltb_ge; unfold minutes; lia).
    done.
Qed.

(* ===================================================================== *)
(** ** Pagination of the list screens *)
(* ===================================================================== *)

Section ListPagination.

Context {Item : Type}.
Implicit Types (L : list Item) (s : ListScreen.Screen Item).

Lemma applyPagination_displayed L n s :
  1 ≤ n →
  ListScreen.displayed (ListScreen.applyPagination L n s)
  = take (Z.to_nat (Z.min (5 * n) (Z.of_nat (length L)))) L.
Proof.
  intros Hn. unfold ListScreen.applyPagination, ListScreen.ITEMS_PER_PAGE.
  cbn [ListScreen.displayed ListScreen.setHasMore ListScreen.setDisplayed].
  rewrite slice_prefix by lia.
  destruct (Z.le_gt_cases (5 * n) (Z.of_nat (length L))).
  - rewrite Z.min_l by lia. f_equal. lia.
  - rewrite Z.min_r by lia. rewrite Nat2Z.id.
    rewrite !take_ge; [done|lia|lia].
Qed.

Lemma applyPagination_hasMore L n s :
  ListScreen.hasMore (ListScreen.applyPagination L n s) = true
  ↔ 5 * n < Z.of_nat (length L).
Proof.
  unfold ListScreen.applyPagination, ListScreen.ITEMS_PER_PAGE.
  cbn [ListScreen.hasMore ListScreen.setHasMore].
  rewrite Z.ltb_lt. lia.
Qed.

Lemma applyPagination_spec L n s :
  1 ≤ n →
  let s' := ListScreen.applyPagination L n s in
  ListScreen.displayed s'
    = take (Z.to_nat (Z.min (5 * n) (Z.of_nat (length L)))) L ∧
  ListScreen.displayed s' `prefix_of` L ∧
  (ListScreen.hasMore s' = true ↔ 5 * n < Z.of_nat (length L)).
Proof.
  intros Hn s'. subst s'. rewrite applyPagination_displayed by done.
  split; [done|]. split; [apply prefix_take|apply applyPagination_hasMore].
Qed.

End ListPagination.

(** C9.  In the all-shops and promo-products screens, for every list [L]
    and every page number [n >= 1], [applyPagination L n] displays exactly
    the first [min (5 n) |L|] elements of [L], in order (a prefix of [L]),
    and sets [hasMore] to [true] if and only if [5 n < |L|]. *)
Theorem applyPagination_prefix (n : Z) (Hn : 1 ≤ n) :
  (∀ (L : list AllShops.Shop) s,
     let s' := AllShops.applyPagination L n s in
     ListScreen.displayed s'
       = take (Z.to_nat (Z.min (5 * n) (Z.of_nat (length L)))) L ∧
     ListScreen.displayed s' `prefix_of` L ∧
     (ListScreen.hasMore s' = true ↔ 5 * n < Z.of_nat (length L))) ∧
  (∀ (L : list PromoProducts.Product) s,
     let s' := PromoProducts.applyPagination L n s in
     ListScreen.displayed s'
       = take (Z.to_nat (Z.min (5 * n) (Z.of_nat (length L)))) L ∧
     ListScreen.displayed s' `prefix_of` L ∧
     (ListScreen.hasMore s' = true ↔ 5 * n < Z.of_nat (length L))).
Proof.
  split; intros L s; by apply applyPagination_spec.
Qed.

Lemma applyPagination_prefix_witness :
  let shop i := AllShops.mkShop i "Boutique" "Lubumbashi" true in
  let L := map shop [1; 2; 3; 4; 5; 6; 7; 8; 9; 10; 11; 12] in
  let s' := AllShops.applyPagination L 2 ListScreen.mounted in
  map AllShops.shop_id (ListScreen.displayed s') = [1; 2; 3; 4; 5; 6; 7; 8; 9; 10] ∧
  ListScreen.hasMore s' = true.
Proof.
  intros shop L s'.
  assert (Hn : 1 ≤ 2) by lia.
  destruct (applyPagination_prefix 2 Hn) as [Hshops _].
  destruct (Hshops L ListScreen.mounted) as (Hd & _ & Hm).
  split.
  - subst s'. rewrite Hd. reflexivity.
  - apply Hm. vm_compute. reflexivity.
Defined.

(* ===================================================================== *)
(** ** Search history *)
(* ===================================================================== *)

Section History.

Import Recherche.

Implicit Types (q : string) (h : list string) (qs : list string).

Lemma updatedHistory_eq q h : updatedHistory q h = inserted q h.
Proof. unfold updatedHistory. by rewrite slice_prefix by lia. Qed.

Lemma inserted_length q h : (length (inserted q h) ≤ 10)%nat.
Proof. unfold inserted. rewrite length_take. lia. Qed.

Lemma saveSearchHistory_run q s d now out :
  Js.trim q ≠ "" →
  saveSearchHistory q s (working d now out) =
  (Resolved (setSearchHistory (inserted q (searchHistory s)) s),
   working (Some (Json (inserted q (searchHistory s)))) now out).
Proof.
  intros Hq. unfold saveSearchHistory.
  rewrite bool_decide_eq_false_2 by done.
  rewrite updatedHistory_eq. reflexivity.
Qed.

Lemma filter_keeps_all {A} (P : A → Prop) `{∀ x, Decision (P x)} (l : list A) :
  Forall P l → filter P l = l.
Proof.
  induction 1 as [|x l Hx _ IH]; [done|].
  rewrite filter_cons. destruct (decide (P x)); [by rewrite IH|done].
Qed.

Lemma NoDup_fmap_filter {A B} (f : A → B) (P : A → Prop)
    `{∀ x, Decision (P x)} (l : list A) :
  NoDup (map f l) → NoDup (map f (filter P l)).
Proof.
  induction l as [|x l IH]; simpl; intros Hnd; [constructor|].
  apply NoDup_cons in Hnd as [Hx Hnd]. rewrite filter_cons.
  destruct (decide (P x)); [|auto]. simpl. apply NoDup_cons. split; [|auto].
  intros Hin. apply Hx. apply list_elem_of_fmap in Hin as (y & -> & Hy).
  apply list_elem_of_fmap. exists y. split; [done|].
  by apply list_elem_of_filter in Hy as [_ Hy].
Qed.

Lemma NoDup_take {A} (n : nat) (l : list A) : NoDup l → NoDup (take n l).
Proof.
  intros Hnd. rewrite <- (take_drop n l) in Hnd.
  by apply NoDup_app in Hnd as [Hnd _].
Qed.

(** An insertion keeps the keys of the history pairwise different. *)
Lemma inserted_NoDup q h :
  NoDup (map Js.toLowerCase h) → NoDup (map Js.toLowerCase (inserted q h)).
Proof.
  intros Hnd. unfold inserted.
  change (map Js.toLowerCase) with (fmap (M:=list) Js.toLowerCase).
  rewrite fmap_take. apply NoDup_take. rewrite fmap_cons.
  apply NoDup_cons. split.
  - intros Hin. apply list_elem_of_fmap in Hin as (y & Hy & Hin).
    apply list_elem_of_filter in Hin as [Hne _]. apply Hne. by rewrite <- Hy.
  - by apply NoDup_fmap_filter.
Qed.

Lemma filter_drops_one (k : string) h :
  NoDup (map Js.toLowerCase h) → k ∈ map Js.toLowerCase h →
  S (length (filter (λ item, Js.toLowerCase item ≠ k) h)) = length h.
Proof.
  induction h as [|x h IH]; simpl; intros Hnd Hin.
  - by apply elem_of_nil in Hin.
  - apply NoDup_cons in Hnd as [Hx Hnd]. rewrite filter_cons.
    destruct (decide (Js.toLowerCase x ≠ k)) as [Hne|Heq].
    + simpl. f_equal. apply IH; [done|].
      apply elem_of_cons in Hin as [Heq|Hin]; [congruence|done].
    + apply dec_stable in Heq. f_equal. rewrite filter_keeps_all; [done|].
      apply Forall_forall. intros y Hy Hk. apply Hx. rewrite Heq, <- Hk.
      apply list_elem_of_fmap. eauto.
Qed.

(** A query whose key is in the history moves to the front; nothing else
    moves and nothing is lost. *)
Lemma inserted_present q h :
  NoDup (map Js.toLowerCase h) → (length h ≤ 10)%nat →
  key q ∈ map Js.toLowerCase h →
  inserted q h = Js.trim q :: filter (λ item, Js.toLowerCase item ≠ key q) h ∧
  length (inserted q h) = length h.
Proof.
  intros Hnd Hlen Hin. pose proof (filter_drops_one _ _ Hnd Hin) as Hone.
  unfold inserted. rewrite take_ge by (simpl; lia). split; [done|].
  simpl. lia.
Qed.

(** The front of the history is the list of the queries made, most recent
    first, as long as their keys differ. *)
Lemma historyAfter_front qs h :
  NoDup (map key qs) →
  take (length qs `min` 10) (historyAfter qs h)
  = take 10 (reverse (map Js.trim qs)).
Proof.
  change (map key qs) with (key <$> qs).
  change (map Js.trim qs) with (Js.trim <$> qs).
  induction qs as [|q qs IH] using rev_ind; intros Hnd; [done|].
  unfold historyAfter. rewrite foldl_app. simpl.
  fold (historyAfter qs h).
  rewrite fmap_app in Hnd. apply NoDup_app in Hnd as (Hnd & Hq & _).
  specialize (IH Hnd).
  rewrite fmap_app, reverse_app. simpl.
  set (P := take 10 (reverse (Js.trim <$> qs))) in *.
  assert (HP : length P = (length qs `min` 10)%nat).
  { subst P. rewrite length_take, length_reverse, length_fmap. lia. }
  assert (Hsplit : historyAfter qs h = P ++ drop (length P) (historyAfter qs h)).
  { rewrite <- IH at 1. rewrite HP. by rewrite take_drop. }
  assert (Hkeep : Forall (λ item, Js.toLowerCase item ≠ key q) P).
  { apply Forall_forall. intros x Hx Hk.
    apply elem_of_take in Hx as (i & Hx & _).
    apply list_elem_of_lookup_2 in Hx. rewrite elem_of_reverse in Hx.
    apply list_elem_of_fmap in Hx as (q' & -> & Hq').
    apply (Hq (key q')).
    - apply list_elem_of_fmap. eauto.
    - unfold key at 1. rewrite Hk. simpl. apply list_elem_of_singleton.
      reflexivity. }
  unfold inserted. rewrite Hsplit, filter_app, (filter_keeps_all _ P Hkeep).
  rewrite take_take. rewrite length_app. simpl length.
  replace (((length qs + 1) `min` 10) `min` 10)%nat
    with (S (length qs `min` 9)) by lia.
  simpl. f_equal.
  rewrite take_app_le by lia.
  subst P. rewrite take_take.
  replace ((length qs `min` 9) `min` 10)%nat with (length qs `min` 9)%nat by lia.
  destruct (decide (length qs ≤ 9)%nat).
  - rewrite !take_ge; [done| |];
      rewrite length_reverse, length_fmap; lia.
  - f_equal. lia.
Qed.

Lemma historyAfter_length qs h :
  qs ≠ [] → (length (historyAfter qs h) ≤ 10)%nat.
Proof.
  destruct qs as [|q qs _] using rev_ind; [done|]. intros _.
  unfold historyAfter. rewrite foldl_app. simpl. apply inserted_length.
Qed.

Lemma historyAfter_ten_most_recent qs h :
  (10 ≤ length qs)%nat → NoDup (map key qs) →
  historyAfter qs h = take 10 (reverse (map Js.trim qs)).
Proof.
  intros Hlen Hnd. rewrite <- (historyAfter_front qs h Hnd).
  rewrite take_ge; [done|].
  assert (Hne : qs ≠ []) by (intros ->; simpl in Hlen; lia).
  pose proof (historyAfter_length qs h Hne). lia.
Qed.

Lemma setSearchHistory_twice h1 h2 s :
  setSearchHistory h2 (setSearchHistory h1 s) = setSearchHistory h2 s.
Proof. reflexivity. Qed.

Lemma saveAll_run qs q s d now out :
  Forall (λ q, Js.trim q ≠ "") (q :: qs) →
  saveAll (q :: qs) s (working d now out) =
  (Resolved (setSearchHistory (historyAfter (q :: qs) (searchHistory s)) s),
   working (Some (Json (historyAfter (q :: qs) (searchHistory s)))) now out).
Proof.
  revert q s d. induction qs as [|q' qs IH]; intros q s d Hall.
  - apply Forall_cons in Hall as [Hq _]. simpl.
    unfold mbind, IO_bind. rewrite saveSearchHistory_run by done. reflexivity.
  - apply Forall_cons in Hall as [Hq Hall].
    change (saveAll (q :: q' :: qs) s)
      with (s' ← saveSearchHistory q s; saveAll (q' :: qs) s').
    unfold mbind, IO_bind. rewrite saveSearchHistory_run by done.
    rewrite IH by done. reflexivity.
Qed.

End History.

(** C5.  Search history.  For a query that is not blank, on a device whose
    storage answers, [saveSearchHistory] sets and persists the history
    made of the trimmed query followed by the former entries that differ
    from it case-insensitively, cut to ten entries; keys stay pairwise
    different.  Saving eleven queries with pairwise different keys leaves
    exactly the ten most recent, most recent first.  Saving a query whose
    key is already in the history moves it to the front: the history keeps
    its length and its keys stay pairwise different. *)
Theorem search_history_capped_dedup :
  (∀ q s d now out,
     Js.trim q ≠ "" →
     let u := take 10
                (Js.trim q ::
                 filter (λ item, Js.toLowerCase item ≠ Js.toLowerCase (Js.trim q))
                        (Recherche.searchHistory s)) in
     Recherche.saveSearchHistory q s (working d now out)
       = (Resolved (Recherche.setSearchHistory u s),
          working (Some (Json u)) now out) ∧
     (length u ≤ 10)%nat ∧
     (NoDup (map Js.toLowerCase (Recherche.searchHistory s)) →
      NoDup (map Js.toLowerCase u))) ∧
  (∀ qs s d now out,
     length qs = 11%nat →
     Forall (λ q, Js.trim q ≠ "") qs →
     NoDup (map key qs) →
     let kept := take 10 (reverse (map Js.trim qs)) in
     saveAll qs s (working d now out)
       = (Resolved (Recherche.setSearchHistory kept s),
          working (Some (Json kept)) now out)) ∧
  (∀ q h,
     Js.trim q ≠ "" →
     NoDup (map Js.toLowerCase h) → (length h ≤ 10)%nat →
     key q ∈ map Js.toLowerCase h →
     Recherche.updatedHistory q h
       = Js.trim q :: filter (λ item, Js.toLowerCase item ≠ key q) h ∧
     length (Recherche.updatedHistory q h) = length h ∧
     NoDup (map Js.toLowerCase (Recherche.updatedHistory q h))).
Proof.
  split; [|split].
  - intros q s d now out Hq u. split; [|split].
    + by apply saveSearchHistory_run.
    + apply inserted_length.
    + apply inserted_NoDup.
  - intros qs s d now out Hlen Hall Hnd kept. subst kept.
    destruct qs as [|q qs]; [discriminate|].
    rewrite saveAll_run by done.
    rewrite historyAfter_ten_most_recent; [done| |done].
    rewrite Hlen. lia.
  - intros q h Hq Hnd Hlen Hin. rewrite updatedHistory_eq.
    destruct (inserted_present q h Hnd Hlen Hin) as [Heq Hl].
    split; [done|]. split; [done|]. by apply inserted_NoDup.
Qed.

Lemma search_history_capped_dedup_witness :
  let s := Recherche.setSearchHistory ["lampe"; "SAC"] (Recherche.mounted "") in
  Recherche.searchHistory
    (match result (Recherche.saveSearchHistory "  Sac " s) (working (D := Recherche.Disk) None 0 []) with
     | Resolved s' => s'
     | Rejected => s
     end) = ["Sac"; "lampe"] ∧
  result (saveAll ["q1"; "q2"; "q3"; "q4"; "q5"; "q6"; "q7"; "q8"; "q9"; "q10"; "q11"]
            (Recherche.mounted "")) (working (D := Recherche.Disk) None 0 [])
    = Resolved (Recherche.setSearchHistory
                  ["q11"; "q10"; "q9"; "q8"; "q7"; "q6"; "q5"; "q4"; "q3"; "q2"]
                  (Recherche.mounted "")) ∧
  Recherche.updatedHistory "SAC " ["lampe"; "sac"] = ["SAC"; "lampe"].
Proof.
  intros s.
  destruct search_history_capped_dedup as (H1 & H2 & H3).
  split; [|split].
  - assert (Hq : Js.trim "  Sac " ≠ "") by (vm_compute; discriminate).
    destruct (H1 "  Sac " s None 0 [] Hq) as (Hrun & _ & _).
    unfold result. rewrite Hrun. reflexivity.
  - unfold result. rewrite H2.
    + reflexivity.
    + reflexivity.
    + repeat (apply Forall_cons_2; [vm_compute; discriminate|]).
      apply Forall_nil_2.
    + apply (bool_decide_unpack _). vm_compute. exact I.
  - assert (Hq : Js.trim "SAC " ≠ "") by (vm_compute; discriminate).
    assert (Hnd : NoDup (map Js.toLowerCase ["lampe"; "sac"]))
      by (apply (bool_decide_unpack _); vm_compute; exact I).
    assert (Hlen : (length ["lampe"; "sac"] ≤ 10)%nat) by (simpl; lia).
    assert (Hin : key "SAC " ∈ map Js.toLowerCase ["lampe"; "sac"])
      by (apply (bool_decide_unpack _); vm_compute; exact I).
    destruct (H3 "SAC " ["lampe"; "sac"] Hq Hnd Hlen Hin) as (Heq & _ & _).
    rewrite Heq. reflexivity.
Defined.

(* ===================================================================== *)
(** ** The discover feed *)
(* ===================================================================== *)

Section Feed.

Import Discover.

Implicit Types (w : World Disk) (ui : Screen) (a : App) (reply : Reply).

Lemma liked_run (l : list Product) w :
  mapM (λ p, liked ← isFavorite (p_id p); mret (set_isLiked liked p)) l w
  = (Resolved (map (λ p, set_isLiked (has (p_id p) (ledger w)) p) l), w).
Proof.
  induction l as [|p l IH]; [reflexivity|].
  cbn [mapM]. unfold mbind at 1, IO_bind at 1.
  unfold mbind at 1, IO_bind at 1. rewrite isFavorite_run.
  unfold mret at 1, IO_ret at 1.
  unfold mbind at 1, IO_bind at 1. rewrite IH. reflexivity.
Qed.

Lemma fetchProducts_failed pageNum shouldShuffle reply rnd ui w :
  failed reply = true →
  fetchProducts pageNum shouldShuffle reply rnd ui w
  = (Resolved ui,
     logged (if thrown reply then ["Erreur fetchProducts:"] else []) w).
Proof.
  intros Hf. unfold fetchProducts, try_catch, mbind, IO_bind, logged.
  destruct reply as [| |b]; simpl.
  - reflexivity.
  - reflexivity.
  - simpl in Hf. apply negb_true_iff in Hf. rewrite Hf.
    rewrite app_nil_r. by destruct w.
Qed.

(** A decoded page after the first one: the new items are appended to both
    lists, the page counter and [hasMore] are set, the world is not
    touched. *)
Lemma fetchProducts_next pageNum shouldShuffle b rnd ui w :
  pageNum ≠ 1 → success b = true →
  fetchProducts pageNum shouldShuffle (Body b) rnd ui w
  = (Resolved
       (let products := if shouldShuffle then shuffleArray rnd (pageProducts b w)
                        else pageProducts b w in
        setHasMore (pageNum <? Js.num_or_else (totalPages b) 1)
          (setPage pageNum
             (setFeedProducts (appendNew products)
                (setAllProducts (appendNew products) ui)))), w).
Proof.
  intros Hp Hs. unfold fetchProducts, try_catch.
  unfold mbind at 1, IO_bind at 1. cbn [response_json].
  unfold mret at 1, IO_ret at 1. rewrite Hs.
  unfold mbind at 1, IO_bind at 1. rewrite liked_run.
  apply Z.eqb_neq in Hp. rewrite Hp. reflexivity.
Qed.

Lemma saveCache_run products shops trending w :
  ∃ w', saveCache products shops trending w = (Resolved tt, w') ∧
        favorites_text (disk w') = favorites_text (disk w) ∧
        faulty w' = faulty w.
Proof.
  unfold saveCache, try_catch, mbind, IO_bind, Date_now, setItem, console_error.
  destruct w as [d [] t c]; simpl; eexists; split; reflexivity || done.
Qed.

(** The first page of a decoded reply replaces both lists. *)
Lemma fetchProducts_first b shouldShuffle rnd ui w :
  success b = true →
  ∃ w',
    fetchProducts 1 shouldShuffle (Body b) rnd ui w
    = (Resolved
         (let products := if shouldShuffle then shuffleArray rnd (pageProducts b w)
                          else pageProducts b w in
          setHasMore (1 <? Js.num_or_else (totalPages b) 1)
            (setPage 1
               (setFeedProducts (λ _, take 10 products)
                  (setAllProducts (λ _, products) ui)))), w').
Proof.
  intros Hs. unfold fetchProducts, try_catch.
  unfold mbind at 1, IO_bind at 1. cbn [response_json].
  unfold mret at 1, IO_ret at 1. rewrite Hs.
  unfold mbind at 1, IO_bind at 1. rewrite liked_run.
  fold (pageProducts b w).
  set (products := if shouldShuffle then _ else _).
  change (1 =? 1) with true. cbv iota.
  unfold mbind at 1, IO_bind at 1. unfold mbind at 1, IO_bind at 1.
  destruct (saveCache_run products (shops ui) (trendingProducts ui) w)
    as (w' & -> & _).
  exists w'. unfold mret, IO_ret.
  rewrite slice_prefix by (unfold ITEMS_PER_PAGE; lia). reflexivity.
Qed.

End Feed.

(** C7, as stated, fails: a reply whose [success] flag is false is dropped
    without a line on the console.  The statement refuted here is "after
    every failed request the screen and the disk are as before and the
    error has been logged". *)
Lemma fetchProducts_unsuccessful_not_logged :
  ¬ (∀ pageNum shouldShuffle reply rnd ui w,
       failed reply = true →
       result (Discover.fetchProducts pageNum shouldShuffle reply rnd ui) w
         = Resolved ui ∧
       disk (after (Discover.fetchProducts pageNum shouldShuffle reply rnd ui) w)
         = disk w ∧
       ∃ line,
         console (after (Discover.fetchProducts pageNum shouldShuffle reply rnd ui) w)
         = console w ++ [line]).
Proof.
  intros H.
  destruct (H 2 false (Discover.Body (Discover.mkProductsBody false None None))
              (λ _, O) Discover.mounted
              (working (Discover.mkDisk None None) 0 []) eq_refl)
    as (_ & _ & line & Hline).
  vm_compute in Hline. discriminate.
Qed.

(** C7, amended.  When the request of the discover feed fails (the fetch
    or the decoding throws, or the body says [success: false]),
    [fetchProducts] resolves with the screen state it was given (product
    lists, page counter, [hasMore]) and leaves the disk, cache envelope
    included, as it was; a thrown error is written to the console, an
    unsuccessful body is dropped without a line; the pending request is
    removed and none is sent in its place. *)
Theorem fetchProducts_failure_keeps_state
    (pageNum : Z) (shouldShuffle : bool) (reply : Discover.Reply)
    (rnd : nat → nat) (ui : Discover.Screen) (w : World Discover.Disk)
    (Hfail : failed reply = true) :
  result (Discover.fetchProducts pageNum shouldShuffle reply rnd ui) w
    = Resolved ui ∧
  disk (after (Discover.fetchProducts pageNum shouldShuffle reply rnd ui) w)
    = disk w ∧
  console (after (Discover.fetchProducts pageNum shouldShuffle reply rnd ui) w)
    = console w ++ (if thrown reply then ["Erreur fetchProducts:"] else []) ∧
  (∀ req rest,
     Discover.settle reply rnd (Discover.mkApp ui w (req :: rest))
     = Discover.mkApp (Discover.setLoadingMore false ui)
         (logged (if thrown reply then ["Erreur fetchProducts:"] else []) w)
         rest).
Proof.
  unfold result, after. rewrite fetchProducts_failed by done.
  repeat split.
  intros req rest. unfold Discover.settle. cbn [Discover.inflight Discover.ui Discover.world].
  rewrite fetchProducts_failed by done. reflexivity.
Qed.

Lemma fetchProducts_failure_keeps_state_witness :
  let ui := Discover.setPage 2 Discover.mounted in
  let w := working (Discover.mkDisk None None) 5 [] in
  result (Discover.fetchProducts 3 false Discover.NetworkError (λ _, O) ui) w
    = Resolved ui ∧
  console (after (Discover.fetchProducts 3 false Discover.NetworkError (λ _, O) ui) w)
    = ["Erreur fetchProducts:"].
Proof.
  intros ui w.
  destruct (fetchProducts_failure_keeps_state 3 false Discover.NetworkError
              (λ _, O) ui w eq_refl) as (Hr & _ & Hc & _).
  split; [exact Hr | exact Hc].
Defined.

(* ===================================================================== *)
(** ** Re-entrant triggers of "load more" *)
(* ===================================================================== *)

Section Reentrancy.

Import Discover.

Implicit Types (a : App) (e : Event) (es : list Event).







End Reentrancy.



(* ===================================================================== *)
(** ** Deduplication in the discover feed *)
(* ===================================================================== *)

Section Dedup.

Import Discover.

Implicit Types (prev incoming : list Product) (ui : Screen) (a : App).

Lemma appendNew_ids incoming prev :
  ids (appendNew incoming prev)
  = ids prev ++ ids (filter (λ p, p_id p ∉ ids prev) incoming).
Proof.
  unfold appendNew, ids.
  change (map p_id) with (fmap (M:=list) p_id). rewrite fmap_app. f_equal. f_equal.
  apply list_filter_iff. intros p. by rewrite elem_of_list_to_set.
Qed.

(** Appending a page keeps identifiers unique, provided the page does not
    repeat an identifier within itself. *)
Lemma appendNew_unique incoming prev :
  NoDup (ids prev) → NoDup (ids incoming) → NoDup (ids (appendNew incoming prev)).
Proof.
  intros Hprev Hpage. rewrite appendNew_ids. apply NoDup_app.
  split; [done|]. split.
  - intros x Hx Hin. unfold ids in Hin.
    apply list_elem_of_fmap in Hin as (p & -> & Hp).
    by apply list_elem_of_filter in Hp as [Hnew _].
  - by apply NoDup_fmap_filter.
Qed.

(** Every identifier of the page is shown after the append. *)
Lemma appendNew_complete incoming prev x :
  x ∈ ids prev ∨ x ∈ ids incoming → x ∈ ids (appendNew incoming prev).
Proof.
  rewrite appendNew_ids, elem_of_app. intros [Hx | Hx]; [by left|].
  destruct (decide (x ∈ ids prev)); [by left|]. right.
  unfold ids in *. apply list_elem_of_fmap in Hx as (p & -> & Hp).
  apply list_elem_of_fmap. exists p. split; [done|].
  by apply list_elem_of_filter.
Qed.

Lemma swap_perm {A} (i j : nat) (l : list A) : swap i j l ≡ₚ l.
Proof.
  unfold swap. destruct (l !! i) as [x|] eqn:Ei; [|done].
  destruct (l !! j) as [y|] eqn:Ej; [|done].
  by apply Permutation_insert_swap.
Qed.

Lemma shuffle_from_perm {A} rnd (i : nat) (l : list A) :
  shuffle_from rnd i l ≡ₚ l.
Proof.
  revert l. induction i as [|i IH]; intros l; [done|].
  cbn [shuffle_from]. rewrite IH. apply swap_perm.
Qed.

Lemma shuffleArray_perm {A} rnd (l : list A) : shuffleArray rnd l ≡ₚ l.
Proof. apply shuffle_from_perm. Qed.

Lemma pageProducts_ids b w : ids (pageProducts b w) = pageIds b.
Proof.
  unfold ids, pageProducts, pageIds, formatProducts.
  rewrite !map_map. reflexivity.
Qed.

Lemma shuffled_ids_unique (shouldShuffle : bool) rnd b w :
  NoDup (pageIds b) →
  NoDup (ids (if shouldShuffle then shuffleArray rnd (pageProducts b w)
              else pageProducts b w)).
Proof.
  intros Hnd. rewrite <- (pageProducts_ids b w) in Hnd.
  destruct shouldShuffle; [|done].
  unfold ids in *. change (map p_id) with (fmap (M:=list) p_id) in *.
  by rewrite shuffleArray_perm.
Qed.

(** [fetchProducts] keeps both lists of the feed free of repeated
    identifiers, whatever the page number and the reply, if a decoded
    page does not repeat an identifier within itself. *)
Lemma fetchProducts_unique pageNum shouldShuffle reply rnd ui w :
  match reply with Body b => NoDup (pageIds b) | _ => True end →
  feedUnique ui →
  ∃ ui' w', fetchProducts pageNum shouldShuffle reply rnd ui w = (Resolved ui', w') ∧
            feedUnique ui'.
Proof.
  intros Hpage Hui.
  destruct (failed reply) eqn:Ef.
  { rewrite fetchProducts_failed by done. eauto. }
  destruct reply as [| |b]; try discriminate.
  simpl in Ef. apply negb_false_iff in Ef.
  pose proof (shuffled_ids_unique shouldShuffle rnd b w Hpage) as Hnd.
  destruct (decide (pageNum = 1)) as [->|Hne].
  - destruct (fetchProducts_first b shouldShuffle rnd ui w Ef) as (w' & ->).
    do 2 eexists. split; [done|]. split; cbn; [done|].
    unfold ids in *. change (map p_id) with (fmap (M:=list) p_id) in *.
    rewrite fmap_take. by apply NoDup_take.
  - rewrite fetchProducts_next by done. do 2 eexists. split; [done|].
    destruct Hui as [Hall Hfeed]. split; cbn; by apply appendNew_unique.
Qed.

Lemma loadMore_and_wait_unique a reply :
  match reply with Body b => NoDup (pageIds b) | _ => True end →
  feedUnique (ui a) → feedUnique (ui (loadMore_and_wait a reply)).
Proof.
  intros Hpage Hui. unfold loadMore_and_wait, settle.
  assert (Hui' : feedUnique (ui (loadMoreProducts a))).
  { unfold loadMoreProducts. by destruct (_ && _). }
  destruct (inflight (loadMoreProducts a)) as [|req rest]; [done|].
  destruct (fetchProducts_unique (req_page req) false reply (λ _, O)
              (ui (loadMoreProducts a)) (world (loadMoreProducts a)) Hpage Hui')
    as (ui' & w' & -> & Hu).
  exact Hu.
Qed.

(** After any number of "load more" rounds the feed shows no identifier
    twice. *)
Lemma discover_feed_unique a replies :
  pagesUnique replies → feedUnique (ui a) → feedUnique (ui (loadPages a replies)).
Proof.
  revert a. induction replies as [|reply replies IH]; intros a Hpages Hui; [done|].
  apply Forall_cons in Hpages as [Hpage Hpages].
  unfold loadPages. simpl. apply IH; [done|].
  by apply loadMore_and_wait_unique.
Qed.

End Dedup.

(* ===================================================================== *)
(** ** The paginators of the search and shop detail screens *)
(* ===================================================================== *)

Section OtherPaginators.

(** "Load more" on the search screen appends the page as it comes. *)
Lemma search_loadMore_appends (s : Recherche.Screen) (d : Recherche.SearchResult)
    (dsk : Recherche.Disk) now out :
  Recherche.loading s = false → Recherche.hasMore s = true →
  Js.trim (Recherche.searchQuery s) ≠ "" → Recherche.success d = true →
  Recherche.products
    (screenAfter (Recherche.handleLoadMore (Recherche.Body d) s)
                 (working dsk now out) s)
  = Recherche.products s ++ map Recherche.process (Recherche.results (Recherche.data d)).
Proof.
  intros Hl Hm Hq Hs. unfold screenAfter, result, Recherche.handleLoadMore.
  rewrite Hl, Hm. cbn [negb andb].
  assert (Hlen : (0 <? Z.of_nat (String.length (Recherche.searchQuery s))) = true).
  { apply Z.ltb_lt. destruct (Recherche.searchQuery s); [done|]. simpl. lia. }
  rewrite Hlen. unfold Recherche.handleSearch.
  rewrite bool_decide_eq_false_2 by done.
  unfold mbind at 1, IO_bind at 1. unfold try_catch.
  unfold mbind at 1, IO_bind at 1. cbn [Recherche.response_json].
  unfold mret at 1, IO_ret at 1. rewrite Hs.
  rewrite saveSearchHistory_run by done. reflexivity.
Qed.

(** "Load more" on the shop detail screen appends the page as it comes. *)
Lemma shop_loadMore_appends (s : ShopDetail.Screen) (d : ShopDetail.ShopBody)
    (w : World unit) :
  ShopDetail.page s < ShopDetail.totalPages s →
  ShopDetail.loadingMore s = false → ShopDetail.success d = true →
  ShopDetail.products
    (screenAfter (ShopDetail.loadMore (ShopDetail.Body d) s) w s)
  = ShopDetail.products s ++ ShopDetail.body_products d.
Proof.
  intros Hp Hl Hs. unfold screenAfter, result, ShopDetail.loadMore.
  apply Z.ltb_lt in Hp. rewrite Hp, Hl. cbn [negb andb].
  unfold ShopDetail.fetchShopData. rewrite Hs.
  destruct (ShopDetail.page s + 1 =? 1); reflexivity.
Qed.

End OtherPaginators.

(** C1, at the failing input.  The backend answers the first search for
    "sac" with the product 7 and announces two pages; the second page
    holds the product 7 again, and the product 8.  After the search and one
    "load more" the result list shows identifier 7 twice.  The product
    list of the shop detail screen does the same on the same two pages. *)
Theorem search_and_shop_lists_repeat_identifiers :
  let raw id title :=
    Recherche.mkRawProduct id title Recherche.NoImages None None None None None None in
  let page1 := Recherche.Body (Recherche.mkSearchResult true
                 (Recherche.mkSearchData [raw 7 "Sac"] 1 2)) in
  let page2 := Recherche.Body (Recherche.mkSearchResult true
                 (Recherche.mkSearchData [raw 7 "Sac"; raw 8 "Lampe"] 2 2)) in
  let w := working (D := Recherche.Disk) None 0 [] in
  let s0 := Recherche.mounted "sac" in
  let s1 := screenAfter (Recherche.handleSearch "sac" true page1 s0) w s0 in
  let s2 := screenAfter (Recherche.handleLoadMore page2 s1) w s1 in
  let item id title := ShopDetail.mkProduct id title (5 # 1) 1 in
  let shop1 := ShopDetail.Body (ShopDetail.mkShopBody true "Boutique" "Awa"
                 [item "7" "Sac"] (ShopDetail.mkPagination 1 2) None) in
  let shop2 := ShopDetail.Body (ShopDetail.mkShopBody true "Boutique" "Awa"
                 [item "7" "Sac"; item "8" "Lampe"] (ShopDetail.mkPagination 2 2) None) in
  let u := mkWorld tt false 0 [] in
  let t0 := ShopDetail.mounted in
  let t1 := screenAfter (ShopDetail.fetchShopData 1 true shop1 t0) u t0 in
  let t2 := screenAfter (ShopDetail.loadMore shop2 t1) u t1 in
  map Recherche.p_id (Recherche.products s1) = [7] ∧
  map Recherche.p_id (Recherche.products s2) = [7; 7; 8] ∧
  ¬ NoDup (map Recherche.p_id (Recherche.products s2)) ∧
  map ShopDetail.p_id (ShopDetail.products t1) = ["7"] ∧
  map ShopDetail.p_id (ShopDetail.products t2) = ["7"; "7"; "8"] ∧
  ¬ NoDup (map ShopDetail.p_id (ShopDetail.products t2)).
Proof.
  intros raw page1 page2 w s0 s1 s2 item shop1 shop2 u t0 t1 t2.
  assert (Hs1 : map Recherche.p_id (Recherche.products s1) = [7])
    by (vm_compute; reflexivity).
  assert (Hs2 : map Recherche.p_id (Recherche.products s2) = [7; 7; 8])
    by (vm_compute; reflexivity).
  assert (Ht1 : map ShopDetail.p_id (ShopDetail.products t1) = ["7"])
    by (vm_compute; reflexivity).
  assert (Ht2 : map ShopDetail.p_id (ShopDetail.products t2) = ["7"; "7"; "8"])
    by (vm_compute; reflexivity).
  repeat split; try done.
  - rewrite Hs2. intros Hnd. apply NoDup_cons in Hnd as [Hnot _].
    apply Hnot. apply elem_of_cons. by left.
  - rewrite Ht2. intros Hnd. apply NoDup_cons in Hnd as [Hnot _].
    apply Hnot. apply elem_of_cons. by left.
Qed.

(** The filter of the discover feed compares a page with the list shown
    before, not with itself: an identifier repeated inside one page is
    appended twice. *)
Example appendNew_repeat_inside_page :
  let p id := Discover.mkProduct id "Sac" (5 # 1) [] false (Discover.mkSeller "Awa") in
  ids (Discover.appendNew [p "8"; p "8"] [p "7"]) = ["7"; "8"; "8"].
Proof. vm_compute. reflexivity. Qed.

(* ===================================================================== *)
(** ** The heart button of the product detail screen *)
(* ===================================================================== *)

Section HeartButton.

Import Discover.

(** With the flag of the screen equal to the membership test, the button
    adds or removes as the ledger does: the flag flips, stays equal to the
    membership test, and identifiers stay unique. *)
Lemma toggleFavorite_in_step product seller d now out :
  favorites_text d ≠ Some Malformed →
  NoDup (map fav_id (stored d)) →
  let flag := has (ProductDetail.p_id product) (stored d) in
  ∃ d',
    ProductDetail.toggleFavorite (Some product) seller flag (working d now out)
      = (Resolved (negb flag), working d' now out) ∧
    has (ProductDetail.p_id product) (stored d') = negb flag ∧
    NoDup (map fav_id (stored d')).
Proof.
  intros Hok Hnd flag.
  assert (Hread : ∀ k : list FavoriteItem → IO Disk bool,
    (favs ← match favorites_text d with
            | Some text => JSON_parse text
            | None => mret []
            end; k favs) (working d now out) = k (stored d) (working d now out)).
  { intros k. unfold stored, mbind, IO_bind.
    destruct (favorites_text d) as [[|l]|]; [done|reflexivity|reflexivity]. }
  unfold ProductDetail.toggleFavorite, try_catch.
  unfold mbind at 1, IO_bind at 1. cbn [getItem working faulty disk peek FAVORITES_STORAGE_KEY].
  fold (working d now out). rewrite Hread.
  destruct flag eqn:Ef; subst flag.
  - eexists. split; [reflexivity|]. split.
    + cbn. apply has_false. intros Hin.
      apply list_elem_of_fmap in Hin as (y & Hy & Hin).
      apply list_elem_of_filter in Hin as [Hne _]. congruence.
    + cbn. by apply NoDup_fmap_filter.
  - eexists. split; [reflexivity|]. split.
    + apply has_true. cbn. apply elem_of_cons. by left.
    + cbn. apply NoDup_cons. split; [|done]. by apply has_false.
Qed.

(** With a flag that lags behind the disk the button writes a second entry
    for the same product. *)
Example toggleFavorite_stale_flag :
  let product := ProductDetail.mkProductDetail "7" "Sac" (5 # 1) [] in
  let old := mkFavoriteItem "7" "Sac" (5 # 1) "" "Vendeur" 10 in
  let w := working (mkDisk (Some (Json [old])) None) 20 [] in
  map fav_id
    (stored (disk (after (ProductDetail.toggleFavorite (Some product) None false) w)))
  = ["7"; "7"].
Proof. reflexivity. Qed.

End HeartButton.

(* ===================================================================== *)
(** ** Further properties of the discover feed *)
(* ===================================================================== *)

Lemma filter_drops_all {A} (P : A → Prop) `{∀ x, Decision (P x)} (l : list A) :
  Forall (λ x, ¬ P x) l → filter P l = [].
Proof.
  induction 1 as [|x l Hx _ IH]; [done|].
  rewrite filter_cons. by destruct (decide (P x)).
Qed.

(** X1.  [shuffleArray] returns a permutation of its argument, whatever
    the draws of [Math.random()]: no product is lost, added or repeated by
    the shuffle, and the length is kept. *)
Theorem shuffleArray_permutes {A : Type} (rnd : nat → nat) (array : list A) :
  Discover.shuffleArray rnd array ≡ₚ array ∧
  length (Discover.shuffleArray rnd array) = length array.
Proof.
  pose proof (shuffleArray_perm rnd array) as Hp.
  split; [done|]. by rewrite Hp.
Qed.

(** X2.  Starting from a feed whose two lists show no identifier twice,
    any number of "load more" rounds leaves both lists without a repeated
    identifier, provided no decoded page repeats an identifier within
    itself; failed rounds are allowed. *)
Theorem feed_identifiers_stay_unique
    (a : Discover.App) (replies : list Discover.Reply)
    (Hpages : pagesUnique replies) (Hstart : feedUnique (Discover.ui a)) :
  feedUnique (Discover.ui (loadPages a replies)).
Proof. by apply discover_feed_unique. Qed.

Lemma feed_identifiers_stay_unique_witness :
  let p id := Discover.mkProduct id "Sac" (5 # 1) [] false (Discover.mkSeller "Awa") in
  let raw id := Discover.mkRawProduct id (Some "Sac") (Some (5 # 1)) None false None in
  let ui := Discover.setFeedProducts (λ _, [p "1"; p "2"])
              (Discover.setAllProducts (λ _, [p "1"; p "2"]) Discover.mounted) in
  let a := Discover.mkApp ui (working (Discover.mkDisk None None) 0 []) [] in
  let replies :=
    [Discover.Body (Discover.mkProductsBody true (Some [raw "2"; raw "3"]) (Some 3));
     Discover.NetworkError;
     Discover.Body (Discover.mkProductsBody true (Some [raw "3"; raw "4"]) (Some 3))] in
  ids (Discover.feedProducts (Discover.ui (loadPages a replies))) = ["1"; "2"; "3"; "4"] ∧
  feedUnique (Discover.ui (loadPages a replies)).
Proof.
  intros p raw ui a replies. split.
  - vm_compute. reflexivity.
  - apply feed_identifiers_stay_unique.
    + repeat (apply Forall_cons_2; [try exact I; apply (bool_decide_unpack _); vm_compute; exact I|]).
      apply Forall_nil_2.
    + split; apply (bool_decide_unpack _); vm_compute; exact I.
Defined.

(** X3.  The append of a later page keeps the list shown as a prefix,
    shows afterwards exactly the identifiers shown before or sent in the
    page, adds at most the length of the page, and adds nothing when every
    identifier of the page is already shown. *)
Theorem appendNew_extends (incoming prev : list Discover.Product) :
  prev `prefix_of` Discover.appendNew incoming prev ∧
  (∀ x, x ∈ ids (Discover.appendNew incoming prev) ↔ x ∈ ids prev ∨ x ∈ ids incoming) ∧
  (length (Discover.appendNew incoming prev) ≤ length prev + length incoming)%nat ∧
  ((∀ x, x ∈ ids incoming → x ∈ ids prev) → Discover.appendNew incoming prev = prev).
Proof.
  assert (Heq : Discover.appendNew incoming prev
                = prev ++ filter (λ p, Discover.p_id p ∉ ids prev) incoming).
  { unfold Discover.appendNew. f_equal. apply list_filter_iff.
    intros p. by rewrite elem_of_list_to_set. }
  split; [|split; [|split]].
  - rewrite Heq. by eexists.
  - intros x. split.
    + rewrite appendNew_ids, elem_of_app. intros [Hx|Hx]; [by left|right].
      unfold ids in *. apply list_elem_of_fmap in Hx as (p & -> & Hp).
      apply list_elem_of_filter in Hp as [_ Hp].
      apply list_elem_of_fmap. eauto.
    + apply appendNew_complete.
  - rewrite Heq, length_app. pose proof (length_filter (λ p, Discover.p_id p ∉ ids prev) incoming).
    lia.
  - intros Hall. rewrite Heq.
    assert (Hnil : filter (λ p, Discover.p_id p ∉ ids prev) incoming = []).
    { apply filter_drops_all, Forall_forall. intros p Hp Hnot. apply Hnot, Hall.
      unfold ids. apply list_elem_of_fmap. eauto. }
    rewrite Hnil. apply app_nil_r.
Qed.

Lemma appendNew_extends_witness :
  let p id := Discover.mkProduct id "Sac" (5 # 1) [] false (Discover.mkSeller "Awa") in
  Discover.appendNew [p "2"; p "1"] [p "1"; p "2"] = [p "1"; p "2"].
Proof.
  intros p.
  destruct (appendNew_extends [p "2"; p "1"] [p "1"; p "2"]) as (_ & _ & _ & H).
  apply H. intros x Hx. vm_compute in Hx. vm_compute.
  apply elem_of_cons in Hx as [->|Hx]; [apply elem_of_cons; right; apply elem_of_cons; by left|].
  apply elem_of_cons in Hx as [->|Hx]; [apply elem_of_cons; by left|].
  by apply elem_of_nil in Hx.
Defined.

Section FirstPage.

Import Discover.

Lemma saveCache_working products shops trending (d : Disk) now out :
  saveCache products shops trending (working d now out)
  = (Resolved tt,
     working (mkDisk (favorites_text d)
                (Some (Json (mkCacheData now products shops trending)))) now out).
Proof. reflexivity. Qed.

Lemma fetchProducts_first_working b (shouldShuffle : bool) rnd ui (d : Disk) now out :
  success b = true →
  let w := working d now out in
  let products := if shouldShuffle then shuffleArray rnd (pageProducts b w)
                  else pageProducts b w in
  fetchProducts 1 shouldShuffle (Body b) rnd ui w
  = (Resolved
       (setHasMore (1 <? Js.num_or_else (totalPages b) 1)
          (setPage 1
             (setFeedProducts (λ _, take 10 products)
                (setAllProducts (λ _, products) ui)))),
     working (mkDisk (favorites_text d)
                (Some (Json (mkCacheData now products (shops ui)
                               (trendingProducts ui))))) now out).
Proof.
  intros Hs w products. unfold fetchProducts, try_catch.
  unfold mbind at 1, IO_bind at 1. cbn [response_json].
  unfold mret at 1, IO_ret at 1. rewrite Hs.
  unfold mbind at 1, IO_bind at 1. rewrite liked_run.
  fold (pageProducts b w). fold products.
  change (1 =? 1) with true. cbv iota.
  unfold mbind at 1, IO_bind at 1. unfold mbind at 1, IO_bind at 1.
  subst w. rewrite saveCache_working.
  unfold mret, IO_ret.
  rewrite slice_prefix by (unfold ITEMS_PER_PAGE; lia). reflexivity.
Qed.

End FirstPage.

(** X4.  A decoded first page ([success: true]) on a device whose storage
    answers replaces both lists of the feed: the full list is the page
    (a permutation of it when shuffled, the page itself otherwise), the
    feed is its first ten items, the page counter is 1, [hasMore] tells
    whether [totalPages] (1 when missing or 0) exceeds 1; the envelope
    written holds the same products under the time of the call and is
    returned by a [loadCache] made at that time. *)
Theorem first_page_replaces_feed
    (b : Discover.ProductsBody) (shouldShuffle : bool) (rnd : nat → nat)
    (ui : Discover.Screen) (d : Discover.Disk) (now : Z) (out : list string)
    (Hsuccess : Discover.success b = true) :
  let w := working d now out in
  let ui' := screenAfter (Discover.fetchProducts 1 shouldShuffle (Discover.Body b) rnd ui) w ui in
  let w' := after (Discover.fetchProducts 1 shouldShuffle (Discover.Body b) rnd ui) w in
  Discover.allProducts ui' ≡ₚ pageProducts b w ∧
  (shouldShuffle = false → Discover.allProducts ui' = pageProducts b w) ∧
  Discover.feedProducts ui' = take 10 (Discover.allProducts ui') ∧
  Discover.page ui' = 1 ∧
  Discover.hasMore ui' = (1 <? Js.num_or_else (Discover.totalPages b) 1) ∧
  Discover.loadCache w'
    = (Resolved (Some (Discover.mkCacheData now (Discover.allProducts ui')
                         (Discover.shops ui) (Discover.trendingProducts ui))), w').
Proof.
  intros w ui' w'. subst ui' w' w. unfold screenAfter, result, after.
  rewrite fetchProducts_first_working by done. cbn [fst snd].
  split; [|split; [|split; [|split; [|split]]]]; cbn.
  - destruct shouldShuffle; [apply shuffleArray_perm|done].
  - by intros ->.
  - done.
  - done.
  - done.
  - rewrite discover_loadCache_run. cbn [Discover.timestamp].
    replace (now - now <? minutes 5) with true
      by (symmetry; apply Z.ltb_lt; unfold minutes; lia).
    done.
Qed.

Lemma first_page_replaces_feed_witness :
  let raw id := Discover.mkRawProduct id (Some "Sac") (Some (5 # 1)) None true None in
  let b := Discover.mkProductsBody true
             (Some (map raw ["1"; "2"; "3"; "4"; "5"; "6"; "7"; "8"; "9"; "10"; "11"; "12"]))
             (Some 3) in
  let w := working (Discover.mkDisk None None) 7 [] in
  let ui' := screenAfter (Discover.fetchProducts 1 false (Discover.Body b) (λ _, O)
                            Discover.mounted) w Discover.mounted in
  ids (Discover.feedProducts ui')
    = ["1"; "2"; "3"; "4"; "5"; "6"; "7"; "8"; "9"; "10"] ∧
  Discover.hasMore ui' = true.
Proof.
  intros raw b w ui'.
  destruct (first_page_replaces_feed b false (λ _, O) Discover.mounted
              (Discover.mkDisk None None) 7 [] eq_refl)
    as (_ & Hall & Hfeed & _ & Hmore & _).
  split.
  - subst ui' w. rewrite Hfeed, (Hall eq_refl). reflexivity.
  - subst ui' w. rewrite Hmore. reflexivity.
Defined.

(** X5.  The [isLiked] flag of a fetched product is never taken from the
    backend: after a decoded first page every product of the full list
    and of the feed carries [isLiked] equal to the membership of its
    identifier in the favourites read from the device. *)
Theorem fetched_products_marked_from_ledger
    (b : Discover.ProductsBody) (shouldShuffle : bool) (rnd : nat → nat)
    (ui : Discover.Screen) (w : World Discover.Disk)
    (Hsuccess : Discover.success b = true) :
  let ui' := screenAfter (Discover.fetchProducts 1 shouldShuffle (Discover.Body b) rnd ui) w ui in
  ∀ p, p ∈ Discover.allProducts ui' ∨ p ∈ Discover.feedProducts ui' →
       Discover.p_isLiked p = has (Discover.p_id p) (ledger w).
Proof.
  intros ui' p Hp. subst ui'. unfold screenAfter, result in Hp.
  destruct (fetchProducts_first b shouldShuffle rnd ui w Hsuccess) as (w' & Hrun).
  rewrite Hrun in Hp. cbn in Hp.
  assert (Hin : p ∈ pageProducts b w).
  { destruct Hp as [Hp|Hp].
    - destruct shouldShuffle; [by rewrite shuffleArray_perm in Hp|done].
    - apply elem_of_take in Hp as (i & Hp & _). apply list_elem_of_lookup_2 in Hp.
      destruct shouldShuffle; [by rewrite shuffleArray_perm in Hp|done]. }
  unfold pageProducts in Hin. apply list_elem_of_fmap in Hin as (q & -> & _).
  reflexivity.
Qed.

Lemma fetched_products_marked_from_ledger_witness :
  let raw id liked := Discover.mkRawProduct id (Some "Sac") (Some (5 # 1)) None liked None in
  let b := Discover.mkProductsBody true (Some [raw "1" true; raw "2" false]) (Some 1) in
  let fav := Discover.mkFavoriteItem "2" "Sac" (5 # 1) "" "Vendeur" 3 in
  let w := working (Discover.mkDisk (Some (Json [fav])) None) 7 [] in
  let ui' := screenAfter (Discover.fetchProducts 1 false (Discover.Body b) (λ _, O)
                            Discover.mounted) w Discover.mounted in
  map Discover.p_isLiked (Discover.allProducts ui') = [false; true] ∧
  Forall (λ p, Discover.p_isLiked p = has (Discover.p_id p) (ledger w))
         (Discover.allProducts ui').
Proof.
  intros raw b fav w ui'. split; [reflexivity|].
  apply Forall_forall. intros p Hp.
  apply (fetched_products_marked_from_ledger b false (λ _, O) Discover.mounted w eq_refl).
  by left.
Defined.

(* ===================================================================== *)
(** ** Further properties of the cache envelopes *)
(* ===================================================================== *)

(** X6.  What [saveCache] writes at time [t], [loadCache] gives back at
    any time [t'] with [t' - t < 5 min] and withholds afterwards, on the
    three screens; the write of the discover screen leaves the favourites
    key as it was. *)
Theorem cache_written_is_read_back :
  (∀ products shops trending (d : Discover.Disk) t out t' out',
     let w1 := after (Discover.saveCache products shops trending) (working d t out) in
     Discover.favorites_text (disk w1) = Discover.favorites_text d ∧
     Discover.loadCache (working (disk w1) t' out')
     = (Resolved (if t' - t <? minutes 5
                  then Some (Discover.mkCacheData t products shops trending)
                  else None),
        working (disk w1) t' out')) ∧
  (∀ (shops : list AllShops.Shop) (d : ListScreen.Disk AllShops.Shop) t out t' out',
     let w1 := after (AllShops.saveCache shops) (working d t out) in
     AllShops.loadCache (working (disk w1) t' out')
     = (Resolved (if t' - t <? minutes 5 then Some shops else None),
        working (disk w1) t' out')) ∧
  (∀ (promos : list PromoProducts.Product) (d : ListScreen.Disk PromoProducts.Product)
     t out t' out',
     let w1 := after (PromoProducts.saveCache promos) (working d t out) in
     PromoProducts.loadCache (working (disk w1) t' out')
     = (Resolved (if t' - t <? minutes 5 then Some promos else None),
        working (disk w1) t' out')).
Proof.
  split; [|split].
  - intros products shops trending d t out t' out' w1. subst w1.
    unfold after. rewrite saveCache_working. cbn [snd working disk].
    split; [done|]. apply discover_loadCache_run.
  - intros shops d t out t' out' w1. subst w1.
    apply (list_loadCache_run AllShops.CACHE_NAME (ListScreen.mkEnvelope t shops)).
  - intros promos d t out t' out' w1. subst w1.
    apply (list_loadCache_run PromoProducts.CACHE_NAME (ListScreen.mkEnvelope t promos)).
Qed.


(* ===================================================================== *)
(** ** Further properties of the favourites *)
(* ===================================================================== *)

(** X8.  On a device whose storage answers: [removeFavorite id] keeps the
    other entries, in order, and removes every entry with [id]; doing it
    twice is doing it once; the membership of any other identifier is not
    changed; and adding a product that was not in the ledger, then
    removing it, restores the list that was stored. *)
Theorem removeFavorite_undoes_addFavorite
    (p : Discover.Product) (id : string) (d : Discover.Disk) (now : Z) (out : list string) :
  let w := working d now out in
  let removed := after (Discover.removeFavorite id) w in
  stored (disk removed) = filter (λ fav, Discover.fav_id fav ≠ id) (stored d) ∧
  after (Discover.removeFavorite id) removed = removed ∧
  (∀ other, other ≠ id → has other (stored (disk removed)) = has other (stored d)) ∧
  (has (Discover.p_id p) (stored d) = false →
   stored (disk (after (Discover.removeFavorite (Discover.p_id p))
                   (after (Discover.addFavorite p) w))) = stored d).
Proof.
  intros w removed. subst removed w. unfold after.
  rewrite removeFavorite_run. cbn [snd].
  split; [done|]. split; [|split].
  - rewrite removeFavorite_run. cbn [snd]. unfold working. f_equal. f_equal.
    unfold stored at 1. cbn. f_equal. f_equal.
    apply filter_keeps_all, Forall_forall. intros x Hx.
    by apply list_elem_of_filter in Hx as [Hx _].
  - intros other Hne. unfold working. cbn [disk].
    unfold stored at 1. cbn [Discover.favorites_text].
    destruct (has other (stored d)) eqn:E.
    + apply has_true in E. apply has_true.
      apply list_elem_of_fmap in E as (x & -> & Hx).
      apply list_elem_of_fmap. exists x. split; [done|].
      apply list_elem_of_filter. split; [congruence|done].
    + apply has_false in E. apply has_false. intros Hin. apply E.
      apply list_elem_of_fmap in Hin as (x & -> & Hx).
      apply list_elem_of_fmap. exists x. split; [done|].
      by apply list_elem_of_filter in Hx as [_ Hx].
  - intros Habsent. rewrite addFavorite_run, Habsent. cbn [snd].
    rewrite removeFavorite_run. cbn [snd]. unfold working. cbn [disk].
    unfold stored at 1 2. cbn [Discover.favorites_text].
    rewrite filter_cons. cbn [Discover.newFav Discover.fav_id].
    destruct (decide (Discover.p_id p ≠ Discover.p_id p)); [done|].
    apply filter_keeps_all, Forall_forall. intros x Hx Heq.
    apply has_false in Habsent. apply Habsent.
    apply list_elem_of_fmap. eauto.
Qed.

Lemma removeFavorite_undoes_addFavorite_witness :
  let p := Discover.mkProduct "7" "Lampe" (25 # 2) ["a.png"] false
             (Discover.mkSeller "Awa") in
  let old := Discover.mkFavoriteItem "3" "Sac" (9 # 1) "" "Vendeur" 10 in
  let d := Discover.mkDisk (Some (Json [old])) None in
  stored (disk (after (Discover.removeFavorite "7")
                  (after (Discover.addFavorite p) (working d 99 [])))) = [old].
Proof.
  intros p old d.
  destruct (removeFavorite_undoes_addFavorite p "7" d 99 []) as (_ & _ & _ & H).
  apply H. reflexivity.
Defined.

Section Heart.

Import Discover.

Lemma loadFavoritesCount_run (w : World Disk) :
  loadFavoritesCount w = (Resolved (Z.of_nat (length (ledger w))), w).
Proof.
  unfold loadFavoritesCount, mbind, IO_bind. by rewrite getFavorites_run.
Qed.

Lemma toggleFavorite_working p ui (d : Disk) now out :
  let id := p_id p in
  let m := has id (stored d) in
  let d' := if m
            then mkDisk (Some (Json (filter (λ fav, fav_id fav ≠ id) (stored d))))
                        (cache_text d)
            else mkDisk (Some (Json (newFav p now :: stored d))) (cache_text d) in
  toggleFavorite p ui (working d now out)
  = (Resolved
       (setTrendingProducts (markLiked id (negb m) (trendingProducts ui))
          (setFeedProducts (markLiked id (negb m))
             (setAllProducts (markLiked id (negb m)) ui)),
        Z.of_nat (length (stored d'))),
     working d' now out).
Proof.
  intros id m d'. subst id m d'. unfold toggleFavorite.
  unfold mbind at 1, IO_bind at 1. rewrite isFavorite_run.
  change (ledger (working d now out)) with (stored d).
  destruct (has (p_id p) (stored d)) eqn:E; cbv beta iota.
  - unfold mbind at 1, IO_bind at 1. rewrite removeFavorite_run. cbv beta iota.
    unfold mbind at 1, IO_bind at 1. rewrite loadFavoritesCount_run. reflexivity.
  - unfold mbind at 1, IO_bind at 1. rewrite addFavorite_run, E. cbv beta iota.
    unfold mbind at 1, IO_bind at 1. rewrite loadFavoritesCount_run. reflexivity.
Qed.

Lemma markLiked_ids id liked l : ids (markLiked id liked l) = ids l.
Proof.
  unfold ids, markLiked. rewrite map_map. apply map_ext.
  intros q. by destruct (bool_decide (p_id q = id)).
Qed.

Lemma markLiked_flag id liked l q :
  q ∈ markLiked id liked l → p_id q = id → p_isLiked q = liked.
Proof.
  unfold markLiked. intros Hq Hid. apply list_elem_of_fmap in Hq as (x & -> & Hx).
  destruct (bool_decide (p_id x = id)) eqn:E; [done|].
  apply bool_decide_eq_false in E. done.
Qed.

Lemma markLiked_others id liked l q :
  q ∈ l → p_id q ≠ id → q ∈ markLiked id liked l.
Proof.
  unfold markLiked. intros Hq Hid. apply list_elem_of_fmap. exists q.
  split; [|done]. by rewrite bool_decide_eq_false_2.
Qed.

End Heart.

(** X9.  The heart of a product card, on a device whose storage answers:
    [toggleFavorite product] flips the membership of [product.id] in the
    ledger; in the three lists of the screen every product with that
    identifier then carries [isLiked] equal to the new membership, the
    products with another identifier are kept as they are and the
    identifiers shown, in order, do not change; the counter is the length
    of the ledger after the change. *)
Theorem toggleFavorite_flips_membership
    (p : Discover.Product) (ui : Discover.Screen) (d : Discover.Disk)
    (now : Z) (out : list string) :
  let id := Discover.p_id p in
  let run := Discover.toggleFavorite p ui (working d now out) in
  ∃ ui' count d',
    run = (Resolved (ui', count), working d' now out) ∧
    has id (stored d') = negb (has id (stored d)) ∧
    count = Z.of_nat (length (stored d')) ∧
    ids (Discover.allProducts ui') = ids (Discover.allProducts ui) ∧
    ids (Discover.feedProducts ui') = ids (Discover.feedProducts ui) ∧
    ids (Discover.trendingProducts ui') = ids (Discover.trendingProducts ui) ∧
    (∀ q, q ∈ Discover.allProducts ui' ∨ q ∈ Discover.feedProducts ui' ∨
          q ∈ Discover.trendingProducts ui' →
          Discover.p_id q = id → Discover.p_isLiked q = has id (stored d')) ∧
    (∀ q, Discover.p_id q ≠ id →
          (q ∈ Discover.allProducts ui → q ∈ Discover.allProducts ui') ∧
          (q ∈ Discover.feedProducts ui → q ∈ Discover.feedProducts ui') ∧
          (q ∈ Discover.trendingProducts ui → q ∈ Discover.trendingProducts ui')).
Proof.
  intros id run. subst run. rewrite toggleFavorite_working.
  fold id. set (m := has id (stored d)).
  do 3 eexists. split; [reflexivity|].
  assert (Hm : has id (stored (if m
     then Discover.mkDisk (Some (Json (filter (λ fav, Discover.fav_id fav ≠ id) (stored d))))
            (Discover.cache_text d)
     else Discover.mkDisk (Some (Json (Discover.newFav p now :: stored d)))
            (Discover.cache_text d))) = negb m).
  { destruct m eqn:E.
    - apply has_false. unfold stored; cbn. intros Hin.
      apply list_elem_of_fmap in Hin as (x & Hx & Hin).
      apply list_elem_of_filter in Hin as [Hne _]. congruence.
    - apply has_true. unfold stored; cbn. apply elem_of_cons. by left. }
  split; [done|]. split; [done|].
  cbn [Discover.allProducts Discover.feedProducts Discover.trendingProducts
       Discover.setTrendingProducts Discover.setFeedProducts Discover.setAllProducts].
  rewrite !markLiked_ids. split; [done|]. split; [done|]. split; [done|].
  split.
  - intros q Hq Hid. rewrite Hm.
    destruct Hq as [Hq|[Hq|Hq]]; by apply (markLiked_flag id _ _ q Hq).
  - intros q Hne. repeat split; intros Hq; by apply markLiked_others.
Qed.

(** X10.  The heart of a product card when the storage layer rejects its
    calls: the membership test reads [false], the write of the new
    favourite fails and is only logged, the handler still resolves; every
    product with the identifier is marked liked on the screen although
    nothing is stored, and the counter is 0, even over a ledger that holds
    entries. *)
Theorem toggleFavorite_storage_failure
    (p : Discover.Product) (ui : Discover.Screen) (d : Discover.Disk)
    (now : Z) (out : list string) :
  ∃ ui',
    Discover.toggleFavorite p ui (mkWorld d true now out)
    = (Resolved (ui', 0), mkWorld d true now (out ++ ["Erreur ajout favori:"])) ∧
    ids (Discover.allProducts ui') = ids (Discover.allProducts ui) ∧
    ids (Discover.feedProducts ui') = ids (Discover.feedProducts ui) ∧
    ids (Discover.trendingProducts ui') = ids (Discover.trendingProducts ui) ∧
    (∀ q, q ∈ Discover.allProducts ui' ∨ q ∈ Discover.feedProducts ui' ∨
          q ∈ Discover.trendingProducts ui' →
          Discover.p_id q = Discover.p_id p → Discover.p_isLiked q = true).
Proof.
  exists (Discover.setTrendingProducts
            (Discover.markLiked (Discover.p_id p) true (Discover.trendingProducts ui))
            (Discover.setFeedProducts (Discover.markLiked (Discover.p_id p) true)
               (Discover.setAllProducts (Discover.markLiked (Discover.p_id p) true) ui))).
  split; [reflexivity|].
  cbn [Discover.allProducts Discover.feedProducts Discover.trendingProducts
       Discover.setTrendingProducts Discover.setFeedProducts Discover.setAllProducts].
  rewrite !markLiked_ids. repeat split.
  intros q [Hq|[Hq|Hq]] Hid; by apply (markLiked_flag _ _ _ _ Hq).
Qed.



(* ===================================================================== *)
(** ** Telephone numbers *)
(* ===================================================================== *)

Section Telephone.

Implicit Types (s phone : string) (c : ascii).

Lemma digit_not_space c : Js.is_digit c = true → Js.is_space c = false.
Proof. destruct c as [[] [] [] [] [] [] [] []]; vm_compute; congruence. Qed.

Lemma digitsOnly_allDigits s : allDigits (Js.digitsOnly s) = true.
Proof.
  induction s as [|c s IH]; [done|]. simpl.
  destruct (Js.is_digit c) eqn:E; [|done]. simpl. by rewrite E, IH.
Qed.

Lemma digitsOnly_fixed s : allDigits s = true → Js.digitsOnly s = s.
Proof.
  induction s as [|c s IH]; [done|]. simpl. intros H.
  apply andb_true_iff in H as [Hc Hs]. by rewrite Hc, IH.
Qed.

Lemma trim_start_digits s : allDigits s = true → Js.trim_start s = s.
Proof.
  destruct s as [|c s]; [done|]. simpl. intros H.
  apply andb_true_iff in H as [Hc _]. by rewrite (digit_not_space c Hc).
Qed.

Lemma trim_end_digits s : allDigits s = true → Js.trim_end s = s.
Proof.
  induction s as [|c s IH]; [done|]. simpl. intros H.
  apply andb_true_iff in H as [Hc Hs]. rewrite (IH Hs).
  destruct s; [by rewrite (digit_not_space c Hc)|done].
Qed.

Lemma trim_digits s : allDigits s = true → Js.trim s = s.
Proof.
  intros H. unfold Js.trim. by rewrite trim_start_digits, trim_end_digits.
Qed.

Lemma allDigits_substring1 s : allDigits s = true → allDigits (Js.substring1 s) = true.
Proof.
  destruct s as [|c s]; [done|]. simpl. intros H.
  by apply andb_true_iff in H as [_ Hs].
Qed.

Lemma allDigits_243 s : allDigits ("243" +:+ s) = allDigits s.
Proof. reflexivity. Qed.

Lemma startsWith_243_0 s : Js.startsWith ("243" +:+ s) "0" = false.
Proof. reflexivity. Qed.

(** A string of digits that does not begin with 0 is left alone by the
    formatter of the product detail screen. *)
Lemma formatPhoneNumber_fixed s :
  allDigits s = true → Js.startsWith s "0" = false →
  ProductDetail.formatPhoneNumber s = s.
Proof.
  intros Hd H0. unfold ProductDetail.formatPhoneNumber.
  rewrite (trim_digits s Hd), (digitsOnly_fixed s Hd). by rewrite H0.
Qed.

End Telephone.

(** X12.  [formatPhoneNumber] of the product detail screen yields digits
    only and never a number that begins with 0: a leading 0 of the cleaned
    number is replaced by 243.  Formatting a formatted number changes
    nothing. *)
Theorem formatPhoneNumber_international (phone : string) :
  let r := ProductDetail.formatPhoneNumber phone in
  allDigits r = true ∧
  Js.startsWith r "0" = false ∧
  ProductDetail.formatPhoneNumber r = r ∧
  (∀ rest, Js.digitsOnly (Js.trim phone) = String "0" rest → r = "243" +:+ rest).
Proof.
  intros r.
  assert (Hd : allDigits r = true ∧ Js.startsWith r "0" = false).
  { subst r. unfold ProductDetail.formatPhoneNumber.
    pose proof (digitsOnly_allDigits (Js.trim phone)) as Hc.
    destruct (Js.startsWith (Js.digitsOnly (Js.trim phone)) "0") eqn:E.
    - split; [|apply startsWith_243_0].
      rewrite allDigits_243. by apply allDigits_substring1.
    - done. }
  destruct Hd as [Hd H0]. split; [done|]. split; [done|]. split.
  - by apply formatPhoneNumber_fixed.
  - intros rest Hrest. subst r. unfold ProductDetail.formatPhoneNumber.
    rewrite Hrest. reflexivity.
Qed.

Lemma formatPhoneNumber_international_witness :
  ProductDetail.formatPhoneNumber " +243 (0) 99-123 " = "243099123" ∧
  ProductDetail.formatPhoneNumber "099 123 45 67" = "243991234567".
Proof.
  split; [reflexivity|].
  destruct (formatPhoneNumber_international "099 123 45 67") as (_ & _ & _ & H).
  apply (H "991234567"). reflexivity.
Defined.

(** X13.  [formatPhoneNumber] of the shop detail screen yields digits
    only, never a number that begins with 0 and never the empty string:
    the result has at least ten digits or begins with 243.  A national
    number of nine digits, written with or without its leading 0, becomes
    243 followed by the nine digits. *)
Theorem shop_formatPhoneNumber_prefixed (phone : string) :
  let r := ShopDetail.formatPhoneNumber phone in
  allDigits r = true ∧
  Js.startsWith r "0" = false ∧
  (3 ≤ String.length r)%nat ∧
  ((10 ≤ String.length r)%nat ∨ Js.startsWith r "243" = true) ∧
  (∀ local, String.length local = 9%nat → Js.startsWith local "0" = false →
     (Js.digitsOnly phone = local ∨ Js.digitsOnly phone = String "0" local) →
     r = "243" +:+ local).
Proof.
  intros r. subst r. unfold ShopDetail.formatPhoneNumber.
  pose proof (digitsOnly_allDigits phone) as Hc.
  set (c0 := Js.digitsOnly phone) in *.
  set (c1 := if Js.startsWith c0 "0" then "243" +:+ Js.substring1 c0 else c0).
  assert (Hc1 : allDigits c1 = true ∧ Js.startsWith c1 "0" = false ∧
                (Js.startsWith c0 "0" = true → Js.startsWith c1 "243" = true)).
  { subst c1. destruct (Js.startsWith c0 "0") eqn:E.
    - split; [|split; [reflexivity|reflexivity]].
      rewrite allDigits_243. by apply allDigits_substring1.
    - split; [done|]. split; [done|]. discriminate. }
  destruct Hc1 as (Hd1 & H01 & H243).
  destruct (String.length c1 <=? 9)%nat eqn:El.
  - split; [by rewrite allDigits_243|]. split; [reflexivity|].
    split; [simpl; lia|]. split; [by right|].
    intros local Hlen Hl0 [Heq|Heq].
    + subst c1. rewrite Heq, Hl0. reflexivity.
    + subst c1. rewrite Heq in El.
      change (Js.startsWith (String "0" local) "0") with true in El.
      apply Nat.leb_le in El.
      change (String.length ("243" +:+ Js.substring1 (String "0" local)))
        with (S (S (S (String.length local)))) in El. lia.
  - apply Nat.leb_gt in El. split; [done|]. split; [done|].
    split; [lia|]. split; [left; lia|].
    intros local Hlen Hl0 [Heq|Heq].
    + subst c1. rewrite Heq, Hl0 in El. lia.
    + subst c1. rewrite Heq. reflexivity.
Qed.

Lemma shop_formatPhoneNumber_prefixed_witness :
  ShopDetail.formatPhoneNumber "099 123 45 67" = "243991234567" ∧
  ShopDetail.formatPhoneNumber "991234567" = "243991234567" ∧
  ShopDetail.formatPhoneNumber "n/a" = "243".
Proof.
  destruct (shop_formatPhoneNumber_prefixed "099 123 45 67") as (_ & _ & _ & _ & H1).
  destruct (shop_formatPhoneNumber_prefixed "991234567") as (_ & _ & _ & _ & H2).
  split; [|split].
  - apply (H1 "991234567"); [reflexivity|reflexivity|by right].
  - apply (H2 "991234567"); [reflexivity|reflexivity|by left].
  - reflexivity.
Defined.

(** X14.  The heart button of the product detail screen.  When the
    favourites key holds a list without repeated identifier,
    [checkIfFavorite] sets the flag of the screen to the membership of the
    product; [toggleFavorite] called with that flag flips the flag and the
    membership together and keeps identifiers unique.  With the key absent
    [checkIfFavorite] leaves the flag as it was, and without a loaded
    product [toggleFavorite] does nothing. *)
Theorem heart_button_follows_ledger
    (product : ProductDetail.ProductDetail) (seller : option ProductDetail.Seller)
    (l : list Discover.FavoriteItem) (cache : option (Text Discover.CacheData))
    (now : Z) (out : list string) (flag0 : bool)
    (Hunique : NoDup (map Discover.fav_id l)) :
  let id := ProductDetail.p_id product in
  let w := working (Discover.mkDisk (Some (Json l)) cache) now out in
  let absent := working (Discover.mkDisk None cache) now out in
  ProductDetail.checkIfFavorite id flag0 w = (Resolved (has id l), w) ∧
  (∃ d',
     ProductDetail.toggleFavorite (Some product) seller (has id l) w
       = (Resolved (negb (has id l)), working d' now out) ∧
     has id (stored d') = negb (has id l) ∧
     NoDup (map Discover.fav_id (stored d'))) ∧
  ProductDetail.checkIfFavorite id flag0 absent = (Resolved flag0, absent) ∧
  ProductDetail.toggleFavorite None seller flag0 w = (Resolved flag0, w).
Proof.
  intros id w absent. split; [reflexivity|]. split; [|split; reflexivity].
  subst w.
  apply (toggleFavorite_in_step product seller
           (Discover.mkDisk (Some (Json l)) cache) now out); [discriminate|done].
Qed.

Lemma heart_button_follows_ledger_witness :
  let product := ProductDetail.mkProductDetail "7" "Sac" (5 # 1) ["a.png"] in
  let old := Discover.mkFavoriteItem "7" "Sac" (5 # 1) "a.png" "Vendeur" 10 in
  let w := working (Discover.mkDisk (Some (Json [old])) None) 20 [] in
  result (ProductDetail.checkIfFavorite "7" false) w = Resolved true ∧
  result (ProductDetail.toggleFavorite (Some product) None true) w = Resolved false ∧
  stored (disk (after (ProductDetail.toggleFavorite (Some product) None true) w)) = [].
Proof.
  intros product old w.
  assert (Hunique : NoDup (map Discover.fav_id [old])) by apply NoDup_singleton.
  destruct (heart_button_follows_ledger product None [old] None 20 [] false Hunique)
    as (Hcheck & _ & _ & _).
  split; [|split].
  - exact (f_equal fst Hcheck).
  - reflexivity.
  - reflexivity.
Defined.

(* ===================================================================== *)
(** ** Further properties of the search screen *)
(* ===================================================================== *)

(** X15.  A new search ([reset = true]) for a query that is not blank,
    answered by a body with [success: true], on a device whose storage
    answers: the results shown are the processed results of the reply,
    whatever was shown before; the page counter is the page of the reply
    plus one, which is the page the next "load more" asks for; [hasMore]
    tells whether the page of the reply is below [total_pages]; the error
    and the three busy flags are cleared; the query is saved at the front
    of the history, on the screen and on the disk. *)
Theorem new_search_replaces_results
    (query : string) (d : Recherche.SearchResult) (s : Recherche.Screen)
    (dsk : Recherche.Disk) (now : Z) (out : list string)
    (Hquery : Js.trim query ≠ "") (Hsuccess : Recherche.success d = true) :
  let w := working dsk now out in
  let history := inserted query (Recherche.searchHistory s) in
  ∃ s',
    Recherche.handleSearch query true (Recherche.Body d) s w
      = (Resolved s', working (Some (Json history)) now out) ∧
    Recherche.products s' = map Recherche.process (Recherche.results (Recherche.data d)) ∧
    Recherche.page s' = Recherche.data_page (Recherche.data d) + 1 ∧
    Recherche.requestedPage false s' = Recherche.data_page (Recherche.data d) + 1 ∧
    Recherche.hasMore s'
      = (Recherche.data_page (Recherche.data d) <? Recherche.total_pages (Recherche.data d)) ∧
    Recherche.error s' = None ∧
    Recherche.isSearching s' = false ∧ Recherche.loading s' = false ∧
    Recherche.refreshing s' = false ∧
    Recherche.searchHistory s' = history ∧
    Recherche.searchQuery s' = Recherche.searchQuery s.
Proof.
  intros w history. subst w history. unfold Recherche.handleSearch.
  rewrite bool_decide_eq_false_2 by done.
  unfold mbind at 1, IO_bind at 1. unfold try_catch.
  unfold mbind at 1, IO_bind at 1. cbn [Recherche.response_json].
  unfold mret at 1, IO_ret at 1. rewrite Hsuccess.
  rewrite saveSearchHistory_run by done.
  eexists. split; [reflexivity|]. repeat split.
Qed.

Lemma new_search_replaces_results_witness :
  let raw id := Recherche.mkRawProduct id "Sac" Recherche.NoImages None None None None None None in
  let d := Recherche.mkSearchResult true (Recherche.mkSearchData [raw 7; raw 8] 1 3) in
  let s := Recherche.setSearchHistory ["lampe"] (Recherche.mounted "sac") in
  let s' := screenAfter (Recherche.handleSearch "sac" true (Recherche.Body d) s)
              (working (D := Recherche.Disk) None 0 []) s in
  map Recherche.p_id (Recherche.products s') = [7; 8] ∧
  Recherche.page s' = 2 ∧ Recherche.hasMore s' = true ∧
  Recherche.searchHistory s' = ["sac"; "lampe"].
Proof.
  intros raw d s s'.
  assert (Hq : Js.trim "sac" ≠ "") by (vm_compute; discriminate).
  destruct (new_search_replaces_results "sac" d s None 0 [] Hq eq_refl)
    as (t & Hrun & Hp & Hpage & _ & Hmore & _ & _ & _ & _ & Hh & _).
  subst s'. unfold screenAfter, result. rewrite Hrun. cbn [fst].
  rewrite Hp, Hpage, Hmore, Hh. repeat split.
Defined.

(** X16.  A search that fails.  When the request throws, the message shown
    depends on the failure, one line is written to the console, the busy
    flags are cleared and nothing is saved in the history.  A failed new
    search has already emptied the results and reset the page counter to 1
    and [hasMore] to [true]; a failed "load more" keeps the results, the
    page counter and [hasMore].  A body with [success: false] does the
    same without message and without line. *)
Theorem failed_search_keeps_or_clears
    (query : string) (f : Recherche.Failure) (d : Recherche.SearchResult)
    (s : Recherche.Screen) (w : World Recherche.Disk)
    (Hquery : Js.trim query ≠ "") (Hfail : Recherche.success d = false) :
  let threw reset := Recherche.handleSearch query reset (Recherche.Failed f) s w in
  let refused reset := Recherche.handleSearch query reset (Recherche.Body d) s w in
  let cleared (s' : Recherche.Screen) :=
    Recherche.products s' = [] ∧ Recherche.page s' = 1 ∧ Recherche.hasMore s' = true in
  let kept (s' : Recherche.Screen) :=
    Recherche.products s' = Recherche.products s ∧ Recherche.page s' = Recherche.page s ∧
    Recherche.hasMore s' = Recherche.hasMore s in
  let idle (s' : Recherche.Screen) :=
    Recherche.isSearching s' = false ∧ Recherche.loading s' = false ∧
    Recherche.refreshing s' = false ∧
    Recherche.searchHistory s' = Recherche.searchHistory s in
  (∃ s', threw true = (Resolved s', logged ["Erreur recherche:"] w) ∧ cleared s' ∧ idle s' ∧
         Recherche.error s' = Some (Recherche.errorMessage (Recherche.Failed f))) ∧
  (∃ s', threw false = (Resolved s', logged ["Erreur recherche:"] w) ∧ kept s' ∧ idle s' ∧
         Recherche.error s' = Some (Recherche.errorMessage (Recherche.Failed f))) ∧
  (∃ s', refused true = (Resolved s', w) ∧ cleared s' ∧ idle s' ∧
         Recherche.error s' = None) ∧
  (∃ s', refused false = (Resolved s', w) ∧ kept s' ∧ idle s' ∧
         Recherche.error s' = Recherche.error s).
Proof.
  intros threw refused cleared kept idle.
  subst threw refused cleared kept idle. cbv beta.
  unfold Recherche.handleSearch. rewrite bool_decide_eq_false_2 by done.
  unfold mbind, IO_bind, try_catch, logged. cbn [Recherche.response_json].
  unfold mret, IO_ret, throw, console_error. rewrite Hfail.
  destruct w as [dsk fl t c].
  repeat split; eexists; (split; [reflexivity|]); repeat split.
Qed.

Lemma failed_search_keeps_or_clears_witness :
  let raw id := Recherche.mkRawProduct id "Sac" Recherche.NoImages None None None None None None in
  let shown := Recherche.setProducts (λ _, [Recherche.process (raw 7)])
                 (Recherche.setPage 2 (Recherche.mounted "sac")) in
  let w := working (D := Recherche.Disk) None 0 [] in
  Recherche.products
    (screenAfter (Recherche.handleSearch "sac" true (Recherche.Failed Recherche.Timeout) shown) w shown)
  = [] ∧
  Recherche.error
    (screenAfter (Recherche.handleSearch "sac" false (Recherche.Failed Recherche.Timeout) shown) w shown)
  = Some "La recherche a pris trop de temps".
Proof.
  intros raw shown w.
  assert (Hq : Js.trim "sac" ≠ "") by (vm_compute; discriminate).
  destruct (failed_search_keeps_or_clears "sac" Recherche.Timeout
              (Recherche.mkSearchResult false (Recherche.mkSearchData [] 1 1))
              shown w Hq eq_refl)
    as ((s1 & Hrun1 & (Hp1 & _) & _) & (s2 & Hrun2 & _ & _ & He2) & _).
  split.
  - unfold screenAfter, result. rewrite Hrun1. exact Hp1.
  - unfold screenAfter, result. rewrite Hrun2. exact He2.
Defined.

(** X17.  Blank queries and the guard of the infinite scroll.  With a
    query that is empty or made of white space, [handleSearch] and
    [saveSearchHistory] change neither the screen nor the device, whatever
    the reply.  [handleLoadMore] changes nothing while a request is
    loading, when [hasMore] is false, or when the search box is empty. *)
Theorem blank_query_and_scroll_guard
    (query : string) (reset : bool) (reply : Recherche.Reply)
    (s : Recherche.Screen) (w : World Recherche.Disk) :
  (Js.trim query = "" →
   Recherche.handleSearch query reset reply s w = (Resolved s, w) ∧
   Recherche.saveSearchHistory query s w = (Resolved s, w)) ∧
  (Recherche.loading s = true ∨ Recherche.hasMore s = false ∨
   Recherche.searchQuery s = "" →
   Recherche.handleLoadMore reply s w = (Resolved s, w)).
Proof.
  split.
  - intros Hblank. unfold Recherche.handleSearch, Recherche.saveSearchHistory.
    by rewrite !bool_decide_eq_true_2 by done.
  - intros Hguard. unfold Recherche.handleLoadMore.
    destruct Hguard as [H|[H|H]]; rewrite H; [done| |].
    + by rewrite andb_false_r.
    + by rewrite andb_false_r.
Qed.

Lemma blank_query_and_scroll_guard_witness :
  let s := Recherche.mounted "   " in
  let w := working (D := Recherche.Disk) None 0 [] in
  Recherche.handleSearch "   " true (Recherche.Failed Recherche.Timeout) s w = (Resolved s, w) ∧
  Recherche.handleLoadMore (Recherche.Failed Recherche.Timeout)
    (Recherche.setHasMore false (Recherche.mounted "sac")) w
  = (Resolved (Recherche.setHasMore false (Recherche.mounted "sac")), w).
Proof.
  intros s w. split.
  - destruct (blank_query_and_scroll_guard "   " true (Recherche.Failed Recherche.Timeout) s w)
      as [H _].
    apply H. reflexivity.
  - destruct (blank_query_and_scroll_guard "" true (Recherche.Failed Recherche.Timeout)
                (Recherche.setHasMore false (Recherche.mounted "sac")) w) as [_ H].
    apply H. right. left. reflexivity.
Defined.



(** X19.  [processImages] never yields a blank address: every string it
    returns is non-empty and is not made of white space only.  Missing
    images and the empty string give the placeholder alone. *)
Theorem processImages_never_blank (images : Recherche.RawImages) :
  Forall (λ img, img ≠ "" ∧ Js.trim img ≠ "") (Recherche.processImages images) ∧
  Recherche.processImages Recherche.NoImages = [Recherche.placeholder] ∧
  Recherche.processImages (Recherche.ImageString "") = [Recherche.placeholder].
Proof.
  split; [|split; reflexivity].
  assert (Hph : Forall (λ img, img ≠ "" ∧ Js.trim img ≠ "") [Recherche.placeholder]).
  { apply Forall_singleton. split; vm_compute; discriminate. }
  assert (Hf : ∀ l, Forall (λ img, img ≠ "" ∧ Js.trim img ≠ "")
                          (filter Recherche.keepImage l)).
  { intros l. apply Forall_forall. intros x Hx.
    by apply list_elem_of_filter in Hx as [Hk _]. }
  destruct images as [|l|str]; simpl; [done|apply Hf|].
  destruct (bool_decide (str = "")); [done|apply Hf].
Qed.

(** X20.  Clearing the history.  On a device whose storage answers the
    screen shows an empty history and the key is removed, so that a reload
    shows nothing and the next saved query is alone in the history.  When
    the removal is rejected the screen is emptied all the same, the
    rejection is not caught, and the stored history is still there for the
    next load. *)
Theorem clearSearchHistory_forgets
    (query : string) (s : Recherche.Screen) (h : list string)
    (now : Z) (out : list string) (Hquery : Js.trim query ≠ "") :
  let cleared := fst (Recherche.clearSearchHistory s) in
  let removal := snd (Recherche.clearSearchHistory s) in
  Recherche.searchHistory cleared = [] ∧
  removal (working (Some (Json h)) now out) = (Resolved tt, working None now out) ∧
  Recherche.loadSearchHistory cleared (working None now out)
    = (Resolved cleared, working None now out) ∧
  Recherche.searchHistory
    (screenAfter (Recherche.saveSearchHistory query cleared) (working None now out) cleared)
    = [Js.trim query] ∧
  removal (mkWorld (Some (Json h)) true now out)
    = (Rejected, mkWorld (Some (Json h)) true now out) ∧
  Recherche.searchHistory
    (screenAfter (Recherche.loadSearchHistory cleared) (working (Some (Json h)) now out) cleared)
    = take 10 h.
Proof.
  intros cleared removal. subst cleared removal.
  split; [reflexivity|]. split; [reflexivity|]. split; [reflexivity|].
  split; [|split; [reflexivity|]].
  - unfold screenAfter, result. rewrite saveSearchHistory_run by done.
    reflexivity.
  - unfold screenAfter, result.
    unfold Recherche.loadSearchHistory, try_catch, mbind, IO_bind. cbn.
    by rewrite slice_prefix by lia.
Qed.

Lemma clearSearchHistory_forgets_witness :
  let s := Recherche.setSearchHistory ["lampe"; "sac"] (Recherche.mounted "") in
  let cleared := fst (Recherche.clearSearchHistory s) in
  Recherche.searchHistory
    (screenAfter (Recherche.saveSearchHistory "velo" cleared)
       (working (D := Recherche.Disk) None 0 []) cleared) = ["velo"].
Proof.
  intros s cleared.
  assert (Hq : Js.trim "velo" ≠ "") by (vm_compute; discriminate).
  destruct (clearSearchHistory_forgets "velo" s [] 0 [] Hq) as (_ & _ & _ & H & _).
  exact H.
Defined.

(* ===================================================================== *)
(** ** Further properties of the list screens *)
(* ===================================================================== *)

Section Walk.

Context {Item : Type}.
Implicit Types (s : ListScreen.Screen Item).

Lemma applyPagination_take (L : list Item) n s :
  1 ≤ n →
  ListScreen.displayed (ListScreen.applyPagination L n s) = take (Z.to_nat (5 * n)) L.
Proof.
  intros Hn. unfold ListScreen.applyPagination, ListScreen.ITEMS_PER_PAGE.
  cbn [ListScreen.displayed ListScreen.setHasMore ListScreen.setDisplayed].
  rewrite slice_prefix by lia. f_equal. lia.
Qed.

Lemma loadMore_paged s : paged s → paged (ListScreen.loadMore s).
Proof.
  intros (Hp & Hl & Hd & Hm). unfold ListScreen.loadMore. rewrite Hl.
  destruct (ListScreen.hasMore s) eqn:E; cbn [negb orb]; [|by repeat split; rewrite ?E].
  repeat split; cbn.
  - lia.
  - rewrite slice_prefix by (unfold ListScreen.ITEMS_PER_PAGE; lia).
    f_equal. unfold ListScreen.ITEMS_PER_PAGE. lia.
  - unfold ListScreen.ITEMS_PER_PAGE. f_equal. lia.
Qed.

Lemma loadMore_allItems s :
  ListScreen.allItems (ListScreen.loadMore s) = ListScreen.allItems s.
Proof.
  unfold ListScreen.loadMore.
  by destruct (ListScreen.loadingMore s || negb (ListScreen.hasMore s)).
Qed.

Lemma paged_displayed_after (n : nat) s :
  paged s →
  ListScreen.displayed (Nat.iter n ListScreen.loadMore s)
  = take (Z.to_nat (5 * (ListScreen.page s + Z.of_nat n))) (ListScreen.allItems s) ∧
  paged (Nat.iter n ListScreen.loadMore s) ∧
  ListScreen.allItems (Nat.iter n ListScreen.loadMore s) = ListScreen.allItems s ∧
  (ListScreen.page (Nat.iter n ListScreen.loadMore s) ≤ ListScreen.page s + Z.of_nat n) ∧
  (ListScreen.page (Nat.iter n ListScreen.loadMore s) < ListScreen.page s + Z.of_nat n →
   ListScreen.hasMore (Nat.iter n ListScreen.loadMore s) = false).
Proof.
  intros Hs. induction n as [|n (IHd & IHp & IHa & IHle & IHlt)].
  - simpl. destruct Hs as (Hp & Hl & Hd & Hm).
    rewrite Z.add_0_r. repeat split; try done; lia.
  - rewrite Nat.iter_succ. set (t := Nat.iter n ListScreen.loadMore s) in *.
    pose proof (loadMore_paged t IHp) as Hp'.
    rewrite loadMore_allItems, IHa.
    destruct IHp as (Hp1 & Hl & Hd & Hm).
    destruct (ListScreen.hasMore t) eqn:E.
    + assert (Hpage : ListScreen.page (ListScreen.loadMore t) = ListScreen.page t + 1).
      { unfold ListScreen.loadMore. by rewrite Hl, E. }
      assert (Heq : ListScreen.page t = ListScreen.page s + Z.of_nat n).
      { destruct (Z.eq_dec (ListScreen.page t) (ListScreen.page s + Z.of_nat n));
          [done|].
        assert (Hc : true = false) by (apply IHlt; lia). discriminate Hc. }
      destruct Hp' as (Hq1 & Hql & Hqd & Hqm).
      split; [|split; [by repeat split|split; [done|split; [lia|lia]]]].
      rewrite Hqd, loadMore_allItems, IHa, Hpage, Heq. f_equal. lia.
    + assert (Hstay : ListScreen.loadMore t = t).
      { unfold ListScreen.loadMore. by rewrite Hl, E. }
      rewrite Hstay.
      split; [|split; [repeat split; [exact Hp1|exact Hl|exact Hd|by rewrite E]
                      |split; [done|split; [lia|by intros _]]]].
      symmetry in Hm. apply Z.ltb_ge in Hm. rewrite IHa in Hm.
      rewrite Hd, IHa. rewrite !take_ge; [done|lia|lia].
Qed.

End Walk.

(** X21.  The page walk of the all-shops and promo-products screens.  On
    a screen in step with its page counter, [loadMore] keeps the screen in
    step and the full list unchanged; after [n] calls the screen shows the
    first [5 * (page + n)] items of the full list, that is the whole list
    once that many are not available; when [hasMore] is false the call
    changes nothing and the whole list is already shown. *)
Theorem loadMore_walks_the_list
    {Item : Type} (s : ListScreen.Screen Item) (n : nat) (Hstep : paged s) :
  let s' := Nat.iter n ListScreen.loadMore s in
  paged s' ∧
  ListScreen.allItems s' = ListScreen.allItems s ∧
  ListScreen.displayed s'
    = take (Z.to_nat (5 * (ListScreen.page s + Z.of_nat n))) (ListScreen.allItems s) ∧
  (Z.of_nat (length (ListScreen.allItems s)) ≤ 5 * (ListScreen.page s + Z.of_nat n) →
   ListScreen.displayed s' = ListScreen.allItems s) ∧
  (ListScreen.hasMore s = false →
   ListScreen.loadMore s = s ∧ ListScreen.displayed s = ListScreen.allItems s).
Proof.
  intros s'. subst s'.
  destruct (paged_displayed_after n s Hstep) as (Hd & Hp & Ha & _ & _).
  split; [done|]. split; [done|]. split; [done|]. split.
  - intros Hall. rewrite Hd. apply take_ge. lia.
  - intros Hm. destruct Hstep as (Hp1 & Hl & Hds & Hms).
    split.
    + unfold ListScreen.loadMore. by rewrite Hl, Hm.
    + rewrite Hm in Hms. symmetry in Hms. apply Z.ltb_ge in Hms.
      rewrite Hds. apply take_ge. lia.
Qed.

Lemma loadMore_walks_the_list_witness :
  let shop i := AllShops.mkShop i "Boutique" "Lubumbashi" true in
  let L := map shop [1; 2; 3; 4; 5; 6; 7; 8; 9; 10; 11; 12] in
  let s := ListScreen.setPage 1
             (AllShops.applyPagination L 1 (ListScreen.setAllItems L ListScreen.mounted)) in
  map AllShops.shop_id (ListScreen.displayed (AllShops.loadMore s)) = [1; 2; 3; 4; 5; 6; 7; 8; 9; 10] ∧
  ListScreen.displayed (Nat.iter 5 AllShops.loadMore s) = L.
Proof.
  intros shop L s.
  assert (Hstep : paged s).
  { repeat split; try reflexivity; try (vm_compute; discriminate). }
  split; [reflexivity|].
  destruct (loadMore_walks_the_list s 5 Hstep) as (_ & _ & _ & Hall & _).
  apply Hall. vm_compute. discriminate.
Defined.

Section SearchBox.

Context {Item : Type} (matches : string → Item → bool).
Implicit Types (s : ListScreen.Screen Item).

Lemma searchEffect_blank query s :
  Js.trim query = "" → ListScreen.loadingMore s = false →
  paged (ListScreen.searchEffect matches query s) ∧
  ListScreen.page (ListScreen.searchEffect matches query s) = 1 ∧
  ListScreen.displayed (ListScreen.searchEffect matches query s)
    = take 5 (ListScreen.allItems s).
Proof.
  intros Hq Hl. unfold ListScreen.searchEffect.
  rewrite bool_decide_eq_true_2 by done.
  assert (Hd : ListScreen.displayed
                 (ListScreen.setPage 1 (ListScreen.applyPagination (ListScreen.allItems s) 1 s))
               = take 5 (ListScreen.allItems s)).
  { cbn [ListScreen.displayed ListScreen.setPage].
    rewrite applyPagination_take by lia. reflexivity. }
  split; [|split; [reflexivity|exact Hd]].
  repeat split; [reflexivity|exact Hl|exact Hd].
Qed.

Lemma searchEffect_query query s :
  Js.trim query ≠ "" →
  let s' := ListScreen.searchEffect matches query s in
  (∀ x, x ∈ ListScreen.displayed s'
        ↔ x ∈ ListScreen.allItems s ∧ matches (Js.toLowerCase query) x = true) ∧
  ListScreen.displayed s' `sublist_of` ListScreen.allItems s ∧
  ListScreen.hasMore s' = false ∧
  ListScreen.loadMore s' = s' ∧
  ListScreen.page s' = ListScreen.page s ∧
  ListScreen.allItems s' = ListScreen.allItems s.
Proof.
  intros Hq s'. subst s'. unfold ListScreen.searchEffect.
  rewrite bool_decide_eq_false_2 by done.
  cbn [ListScreen.displayed ListScreen.hasMore ListScreen.page ListScreen.allItems
       ListScreen.setHasMore ListScreen.setDisplayed].
  split; [|split; [apply sublist_filter|split; [done|split; [|done]]]].
  - intros x. rewrite list_elem_of_filter. tauto.
  - unfold ListScreen.loadMore. cbn [ListScreen.hasMore ListScreen.setHasMore].
    by rewrite orb_true_r.
Qed.

End SearchBox.

(** X22.  The search box of the all-shops and promo-products screens.
    With a blank query the first page is shown again, with the page
    counter at 1 and the screen in step with it.  With any other query the
    screen shows, in the order of the full list, exactly the items that
    match the lower-cased query (a shop by its name or its town, a product
    by its title); [hasMore] is false, so that [loadMore] changes nothing
    while the query stands; the page counter and the full list are kept. *)
Theorem searchEffect_filters (query : string) :
  (Js.trim query = "" →
   (∀ s : ListScreen.Screen AllShops.Shop,
      ListScreen.loadingMore s = false →
      paged (AllShops.searchEffect query s) ∧
      ListScreen.page (AllShops.searchEffect query s) = 1 ∧
      ListScreen.displayed (AllShops.searchEffect query s) = take 5 (ListScreen.allItems s)) ∧
   (∀ s : ListScreen.Screen PromoProducts.Product,
      ListScreen.loadingMore s = false →
      paged (PromoProducts.searchEffect query s) ∧
      ListScreen.page (PromoProducts.searchEffect query s) = 1 ∧
      ListScreen.displayed (PromoProducts.searchEffect query s)
        = take 5 (ListScreen.allItems s))) ∧
  (Js.trim query ≠ "" →
   (∀ s : ListScreen.Screen AllShops.Shop,
      let s' := AllShops.searchEffect query s in
      (∀ shop, shop ∈ ListScreen.displayed s'
         ↔ shop ∈ ListScreen.allItems s ∧
           (Js.includes (Js.toLowerCase (AllShops.shop_nom shop)) (Js.toLowerCase query) = true ∨
            Js.includes (Js.toLowerCase (AllShops.shop_ville shop)) (Js.toLowerCase query) = true)) ∧
      ListScreen.displayed s' `sublist_of` ListScreen.allItems s ∧
      ListScreen.hasMore s' = false ∧
      AllShops.loadMore s' = s' ∧
      ListScreen.page s' = ListScreen.page s ∧
      ListScreen.allItems s' = ListScreen.allItems s) ∧
   (∀ s : ListScreen.Screen PromoProducts.Product,
      let s' := PromoProducts.searchEffect query s in
      (∀ p, p ∈ ListScreen.displayed s'
         ↔ p ∈ ListScreen.allItems s ∧
           Js.includes (Js.toLowerCase (PromoProducts.p_title p)) (Js.toLowerCase query) = true) ∧
      ListScreen.displayed s' `sublist_of` ListScreen.allItems s ∧
      ListScreen.hasMore s' = false ∧
      PromoProducts.loadMore s' = s' ∧
      ListScreen.page s' = ListScreen.page s ∧
      ListScreen.allItems s' = ListScreen.allItems s)).
Proof.
  split.
  - intros Hq. split; intros s Hl; by apply searchEffect_blank.
  - intros Hq. split; intros s s'.
    + destruct (searchEffect_query AllShops.matches query s Hq) as (Hin & Hrest).
      subst s'. unfold AllShops.searchEffect, AllShops.loadMore.
      split; [|exact Hrest].
      intros shop. rewrite (Hin shop). unfold AllShops.matches.
      by rewrite orb_true_iff.
    + apply (searchEffect_query PromoProducts.matches query s Hq).
Qed.

Lemma searchEffect_filters_witness :
  let shop i nom ville := AllShops.mkShop i nom ville true in
  let L := [shop 1 "Chez Awa" "Lubumbashi"; shop 2 "Kin Mode" "Kinshasa";
            shop 3 "Lubum Tech" "Likasi"] in
  let s := ListScreen.setAllItems L ListScreen.mounted in
  map AllShops.shop_id (ListScreen.displayed (AllShops.searchEffect "LUBUM" s)) = [1; 3] ∧
  ListScreen.hasMore (AllShops.searchEffect "LUBUM" s) = false ∧
  ListScreen.page (AllShops.searchEffect "  " s) = 1.
Proof.
  intros shop L s.
  destruct (searchEffect_filters "LUBUM") as [_ Hq].
  destruct (searchEffect_filters "  ") as [Hb _].
  assert (H1 : Js.trim "LUBUM" ≠ "") by (vm_compute; discriminate).
  destruct (Hq H1) as [Hshops _].
  destruct (Hshops s) as (_ & _ & Hm & _).
  destruct (Hb eq_refl) as [Hblank _].
  destruct (Hblank s eq_refl) as (_ & Hp & _).
  split; [reflexivity|]. split; [exact Hm|exact Hp].
Defined.

(** X23.  [fetchPromoProducts], on a device whose storage answers.  A body
    with [success: true] replaces the full list by the promotions of the
    page: the raw products flagged [isPromotion] or [is_boosted], in the
    order of the page, each one marked [isPromotion]; the first five are
    shown and the list is written to the cache under the time of the call.
    A body with [success: false] empties the screen and switches
    pagination off, the cache is left as it was.  A request that throws
    keeps the lists and writes one line.  In every case the loading flag
    ends false. *)
Theorem fetchPromoProducts_outcomes
    (showLoading : bool) (b : PromoProducts.ProductsBody)
    (s : ListScreen.Screen PromoProducts.Product)
    (dsk : ListScreen.Disk PromoProducts.Product) (now : Z) (out : list string) :
  let w := working dsk now out in
  let promos := PromoProducts.promosOf (default [] (PromoProducts.products b)) in
  let flagged r := PromoProducts.raw_isPromotion r || PromoProducts.raw_is_boosted r = true in
  Forall (λ p, PromoProducts.p_isPromotion p = true) promos ∧
  map PromoProducts.p_id promos
    = map PromoProducts.raw_id (filter flagged (default [] (PromoProducts.products b))) ∧
  (PromoProducts.success b = true →
   ∃ s', PromoProducts.fetchPromoProducts showLoading (PromoProducts.Body b) s w
         = (Resolved s', working (Some (Json (ListScreen.mkEnvelope now promos))) now out) ∧
         ListScreen.allItems s' = promos ∧
         ListScreen.displayed s' = take 5 promos ∧
         ListScreen.hasMore s' = (5 <? Z.of_nat (length promos)) ∧
         ListScreen.loading s' = false) ∧
  (PromoProducts.success b = false →
   ∃ s', PromoProducts.fetchPromoProducts showLoading (PromoProducts.Body b) s w
         = (Resolved s', w) ∧
         ListScreen.allItems s' = [] ∧ ListScreen.displayed s' = [] ∧
         ListScreen.hasMore s' = false ∧
         ListScreen.loading s' = false) ∧
  (∀ reply, reply = PromoProducts.NetworkError ∨ reply = PromoProducts.BadJson →
   ∃ s', PromoProducts.fetchPromoProducts showLoading reply s w
         = (Resolved s', logged ["Erreur fetchPromoProducts:"] w) ∧
         ListScreen.allItems s' = ListScreen.allItems s ∧
         ListScreen.displayed s' = ListScreen.displayed s ∧
         ListScreen.hasMore s' = ListScreen.hasMore s ∧
         ListScreen.loading s' = false).
Proof.
  intros w promos flagged. split; [|split; [|split; [|split]]].
  - subst promos. unfold PromoProducts.promosOf. apply Forall_forall.
    intros p Hp. apply list_elem_of_fmap in Hp as (r & -> & Hr).
    by apply list_elem_of_filter in Hr as [Hr _].
  - subst promos. unfold PromoProducts.promosOf. by rewrite map_map.
  - intros Hs. unfold PromoProducts.fetchPromoProducts, try_catch.
    unfold mbind at 1, IO_bind at 1. unfold mbind at 1, IO_bind at 1.
    cbn [PromoProducts.response_json]. unfold mret at 1, IO_ret at 1. rewrite Hs.
    fold promos. eexists. split; [reflexivity|].
    pose proof (applyPagination_take promos 1) as Hd.
    unfold PromoProducts.applyPagination.
    destruct showLoading; (repeat split; [apply Hd; lia]).
  - intros Hs. unfold PromoProducts.fetchPromoProducts, try_catch.
    unfold mbind at 1, IO_bind at 1. unfold mbind at 1, IO_bind at 1.
    cbn [PromoProducts.response_json]. unfold mret at 1, IO_ret at 1. rewrite Hs.
    eexists. split; [reflexivity|]. destruct showLoading; repeat split.
  - intros reply [->| ->]; (eexists; split; [reflexivity|]);
      destruct showLoading; repeat split.
Qed.

Lemma fetchPromoProducts_outcomes_witness :
  let raw id promo boost := PromoProducts.mkRawProduct id (Some "Sac") (Some (5 # 1)) promo boost in
  let b := PromoProducts.mkProductsBody true
             (Some [raw "1" false false; raw "2" true false; raw "3" false true]) in
  let s' := screenAfter (PromoProducts.fetchPromoProducts true (PromoProducts.Body b)
                           ListScreen.mounted)
              (working (D := ListScreen.Disk PromoProducts.Product) None 9 [])
              ListScreen.mounted in
  map PromoProducts.p_id (ListScreen.allItems s') = ["2"; "3"] ∧
  ListScreen.loading s' = false.
Proof.
  intros raw b s'.
  destruct (fetchPromoProducts_outcomes true b ListScreen.mounted None 9 [])
    as (_ & _ & Hok & _ & _).
  destruct (Hok eq_refl) as (t & Hrun & Hall & _ & _ & Hl).
  subst s'. unfold screenAfter, result. rewrite Hrun. cbn [fst].
  split; [by rewrite Hall|exact Hl].
Defined.

(** X24.  [fetchShops], on a device whose storage answers.  A body with
    [success: true] replaces the full list by the shops of the reply, in
    order, every one marked verified; the first five are shown and the
    list is written to the cache.  A body with [success: false] empties
    the screen and switches pagination off, the cache is left as it was.
    A request that throws keeps the lists and writes one line.  In every
    case the loading flag ends false. *)
Theorem fetchShops_outcomes
    (showLoading : bool) (b : AllShops.ShopsBody)
    (s : ListScreen.Screen AllShops.Shop)
    (dsk : ListScreen.Disk AllShops.Shop) (now : Z) (out : list string) :
  let w := working dsk now out in
  let received := default [] (AllShops.shops b) in
  let verified := map (AllShops.set_verified true) received in
  Forall (λ shop, AllShops.shop_verified shop = true) verified ∧
  map AllShops.shop_id verified = map AllShops.shop_id received ∧
  (AllShops.success b = true →
   ∃ s', AllShops.fetchShops showLoading (AllShops.Body b) s w
         = (Resolved s', working (Some (Json (ListScreen.mkEnvelope now verified))) now out) ∧
         ListScreen.allItems s' = verified ∧
         ListScreen.displayed s' = take 5 verified ∧
         ListScreen.hasMore s' = (5 <? Z.of_nat (length received)) ∧
         ListScreen.loading s' = false) ∧
  (AllShops.success b = false →
   ∃ s', AllShops.fetchShops showLoading (AllShops.Body b) s w = (Resolved s', w) ∧
         ListScreen.allItems s' = [] ∧ ListScreen.displayed s' = [] ∧
         ListScreen.hasMore s' = false ∧
         ListScreen.loading s' = false) ∧
  (∀ reply, reply = AllShops.NetworkError ∨ reply = AllShops.BadJson →
   ∃ s', AllShops.fetchShops showLoading reply s w
         = (Resolved s', logged ["Erreur fetchShops:"] w) ∧
         ListScreen.allItems s' = ListScreen.allItems s ∧
         ListScreen.displayed s' = ListScreen.displayed s ∧
         ListScreen.hasMore s' = ListScreen.hasMore s ∧
         ListScreen.loading s' = false).
Proof.
  intros w received verified. split; [|split; [|split; [|split]]].
  - subst verified. apply Forall_forall. intros shop Hs.
    by apply list_elem_of_fmap in Hs as (r & -> & _).
  - subst verified. by rewrite map_map.
  - intros Hs. unfold AllShops.fetchShops, try_catch.
    unfold mbind at 1, IO_bind at 1. unfold mbind at 1, IO_bind at 1.
    cbn [AllShops.response_json]. unfold mret at 1, IO_ret at 1. rewrite Hs.
    fold received. fold verified.
    assert (Hlen : length verified = length received)
      by (subst verified; apply length_map).
    rewrite <- Hlen. eexists. split; [reflexivity|].
    pose proof (applyPagination_take verified 1) as Hd.
    unfold AllShops.applyPagination.
    destruct showLoading; (repeat split; [apply Hd; lia]).
  - intros Hs. unfold AllShops.fetchShops, try_catch.
    unfold mbind at 1, IO_bind at 1. unfold mbind at 1, IO_bind at 1.
    cbn [AllShops.response_json]. unfold mret at 1, IO_ret at 1. rewrite Hs.
    eexists. split; [reflexivity|]. destruct showLoading; repeat split.
  - intros reply [->| ->]; (eexists; split; [reflexivity|]);
      destruct showLoading; repeat split.
Qed.

Lemma fetchShops_outcomes_witness :
  let shop i := AllShops.mkShop i "Boutique" "Lubumbashi" false in
  let b := AllShops.mkShopsBody false (Some [shop 1; shop 2]) in
  let shown := ListScreen.setDisplayed [shop 9] (ListScreen.setAllItems [shop 9] ListScreen.mounted) in
  let s' := screenAfter (AllShops.fetchShops false (AllShops.Body b) shown)
              (working (D := ListScreen.Disk AllShops.Shop) None 9 []) shown in
  ListScreen.displayed s' = [] ∧ ListScreen.hasMore s' = false.
Proof.
  intros shop b shown s'.
  destruct (fetchShops_outcomes false b shown None 9 []) as (_ & _ & _ & Hno & _).
  destruct (Hno eq_refl) as (t & Hrun & _ & Hd & Hm & _).
  subst s'. unfold screenAfter, result. rewrite Hrun. cbn [fst].
  split; [exact Hd|exact Hm].
Defined.

Section Category.

Import Discover.

Lemma filterByCategory_selected c b rnd ui (w : World Disk) :
  selectedCategory ui ≠ Some c → success b = true →
  filterByCategory c (Body b) rnd ui w
  = (Resolved
       (setLoading false
          (setHasMore (moreThanOnePage b)
             (setPage 1
                (setFeedProducts (λ _, take 10 (pageProducts b w))
                   (setAllProducts (λ _, pageProducts b w)
                      (setLoading true (setSelectedCategory (Some c) ui))))))), w).
Proof.
  intros Hc Hs. unfold filterByCategory. rewrite bool_decide_eq_false_2 by done.
  unfold try_catch. unfold mbind at 1, IO_bind at 1.
  unfold mbind at 1, IO_bind at 1. cbn [response_json].
  unfold mret at 1, IO_ret at 1. rewrite Hs.
  unfold mbind at 1, IO_bind at 1. rewrite liked_run. fold (pageProducts b w).
  unfold mret, IO_ret.
  rewrite slice_prefix by (unfold ITEMS_PER_PAGE; lia). reflexivity.
Qed.

Lemma filterByCategory_refused c reply rnd ui (w : World Disk) :
  selectedCategory ui ≠ Some c → failed reply = true →
  filterByCategory c reply rnd ui w
  = (Resolved (setLoading false (setSelectedCategory (Some c) ui)),
     logged (if thrown reply then ["Erreur filtre catégorie:"] else []) w).
Proof.
  intros Hc Hf. unfold filterByCategory. rewrite bool_decide_eq_false_2 by done.
  unfold try_catch, mbind, IO_bind, logged.
  destruct reply as [| |b]; simpl.
  - reflexivity.
  - reflexivity.
  - simpl in Hf. apply negb_true_iff in Hf. rewrite Hf.
    rewrite app_nil_r. by destruct w.
Qed.

End Category.

(** X25.  Pressing a category chip that is not the selected one
    ([filterByCategory], second branch).  The chip becomes the selected
    category and the loading flag ends false whatever the reply.  A decoded
    page with [success: true] replaces the full list by the page in the
    order received (never shuffled), the feed by its first ten items, sets
    the page counter to 1 and [hasMore] to [totalPages > 1]; nothing is
    written to the device, so the cache still holds the unfiltered feed.
    A failed reply keeps both lists, the page counter and [hasMore], so the
    chip is shown selected over the products of the former selection. *)
Theorem filterByCategory_select
    (categoryName : string) (reply : Discover.Reply) (rnd : nat → nat)
    (ui : Discover.Screen) (w : World Discover.Disk)
    (Hother : Discover.selectedCategory ui ≠ Some categoryName) :
  let ui' := screenAfter (Discover.filterByCategory categoryName reply rnd ui) w ui in
  let w' := after (Discover.filterByCategory categoryName reply rnd ui) w in
  Discover.filterByCategory_request categoryName ui
    = Discover.mkRequest 1 50 (Some categoryName) ∧
  Discover.selectedCategory ui' = Some categoryName ∧
  Discover.loading ui' = false ∧
  disk w' = disk w ∧
  (∀ b, reply = Discover.Body b → Discover.success b = true →
        Discover.allProducts ui' = pageProducts b w ∧
        Discover.feedProducts ui' = take 10 (pageProducts b w) ∧
        Discover.page ui' = 1 ∧
        Discover.hasMore ui' = Discover.moreThanOnePage b ∧
        w' = w) ∧
  (failed reply = true →
        Discover.allProducts ui' = Discover.allProducts ui ∧
        Discover.feedProducts ui' = Discover.feedProducts ui ∧
        Discover.page ui' = Discover.page ui ∧
        Discover.hasMore ui' = Discover.hasMore ui ∧
        console w' = console w
          ++ (if thrown reply then ["Erreur filtre catégorie:"] else [])).
Proof.
  intros ui' w'. subst ui' w'. unfold screenAfter, result, after.
  split.
  { unfold Discover.filterByCategory_request.
    by rewrite bool_decide_eq_false_2 by done. }
  destruct (failed reply) eqn:Hf.
  - rewrite filterByCategory_refused by done. cbn [fst snd].
    split; [done|]. split; [done|]. split; [done|]. split; [|done].
    intros b -> Hs. simpl in Hf. by rewrite Hs in Hf.
  - destruct reply as [| |b]; try discriminate Hf.
    simpl in Hf. apply negb_false_iff in Hf.
    rewrite filterByCategory_selected by done. cbn [fst snd].
    split; [done|]. split; [done|]. split; [done|]. split; [|done].
    by intros b' [= <-] _.
Qed.

Lemma filterByCategory_select_witness :
  let raw id := Discover.mkRawProduct id (Some "Sac") (Some (5 # 1)) None true None in
  let b := Discover.mkProductsBody true (Some [raw "1"; raw "2"]) (Some 3) in
  let w := working (Discover.mkDisk None None) 7 [] in
  let ui' := screenAfter (Discover.filterByCategory "Mode" (Discover.Body b) (λ _, O)
                            Discover.mounted) w Discover.mounted in
  Discover.selectedCategory ui' = Some "Mode" ∧
  ids (Discover.allProducts ui') = ["1"; "2"] ∧
  Discover.hasMore ui' = true.
Proof.
  intros raw b w ui'.
  assert (Hother : Discover.selectedCategory Discover.mounted ≠ Some "Mode")
    by (vm_compute; discriminate).
  destruct (filterByCategory_select "Mode" (Discover.Body b) (λ _, O)
              Discover.mounted w Hother)
    as (_ & Hsel & _ & _ & Hok & _).
  destruct (Hok b eq_refl eq_refl) as (Hall & _ & _ & Hmore & _).
  split; [exact Hsel|]. split.
  - subst ui'. rewrite Hall. reflexivity.
  - subst ui'. rewrite Hmore. reflexivity.
Defined.

(** X26.  Pressing the selected chip again ([filterByCategory], first
    branch) clears the selection on the screen, but the request sent by
    [fetchProducts(1, true)] is built from the [selectedCategory] of the
    render that handled the press: it still asks for the category.  On a
    decoded page with [success: true] the full list is a permutation of
    that page, the feed its first ten items, and, unlike a selection, the
    page is written to the cache; the loading flag ends false. *)
Theorem filterByCategory_deselect
    (categoryName : string) (b : Discover.ProductsBody) (rnd : nat → nat)
    (ui : Discover.Screen) (d : Discover.Disk) (now : Z) (out : list string)
    (Hname : categoryName ≠ "")
    (Hselected : Discover.selectedCategory ui = Some categoryName)
    (Hsuccess : Discover.success b = true) :
  let w := working d now out in
  let ui' := screenAfter (Discover.filterByCategory categoryName (Discover.Body b) rnd ui) w ui in
  let w' := after (Discover.filterByCategory categoryName (Discover.Body b) rnd ui) w in
  Discover.filterByCategory_request categoryName ui
    = Discover.mkRequest 1 50 (Some categoryName) ∧
  Discover.selectedCategory ui' = None ∧
  Discover.loading ui' = false ∧
  Discover.allProducts ui' ≡ₚ pageProducts b w ∧
  Discover.feedProducts ui' = take 10 (Discover.allProducts ui') ∧
  Discover.page ui' = 1 ∧
  Discover.cache_text (disk w')
    = Some (Json (Discover.mkCacheData now (Discover.allProducts ui')
                    (Discover.shops ui) (Discover.trendingProducts ui))).
Proof.
  intros w ui' w'. split.
  { unfold Discover.filterByCategory_request.
    rewrite bool_decide_eq_true_2 by done. rewrite Hselected.
    destruct categoryName; [done|reflexivity]. }
  assert (Hrun : Discover.filterByCategory categoryName (Discover.Body b) rnd ui w
    = (let '(r, v) := Discover.fetchProducts 1 true (Discover.Body b) rnd
                        (Discover.setLoading true (Discover.setSelectedCategory None ui)) w in
       match r with
       | Resolved t => (Resolved (Discover.setLoading false t), v)
       | Rejected => (Rejected, v)
       end)).
  { unfold Discover.filterByCategory. rewrite bool_decide_eq_true_2 by done.
    unfold mbind, IO_bind, mret, IO_ret.
    by destruct (Discover.fetchProducts _ _ _ _ _ w) as [[|t] v]. }
  subst ui' w'. unfold screenAfter, result, after. rewrite Hrun. subst w.
  rewrite fetchProducts_first_working by done. cbn [fst snd].
  split; [done|]. split; [done|]. split; [cbn; apply shuffleArray_perm|].
  split; [done|]. split; done.
Qed.

Lemma filterByCategory_deselect_witness :
  let raw id := Discover.mkRawProduct id (Some "Sac") (Some (5 # 1)) None true None in
  let b := Discover.mkProductsBody true (Some [raw "1"; raw "2"]) (Some 3) in
  let ui := Discover.setSelectedCategory (Some "Mode") Discover.mounted in
  let w := working (Discover.mkDisk None None) 7 [] in
  let ui' := screenAfter (Discover.filterByCategory "Mode" (Discover.Body b) (λ _, O) ui) w ui in
  Discover.req_category (Discover.filterByCategory_request "Mode" ui) = Some "Mode" ∧
  Discover.selectedCategory ui' = None ∧
  Discover.page ui' = 1.
Proof.
  intros raw b ui w ui'.
  assert (Hname : "Mode" ≠ "") by discriminate.
  destruct (filterByCategory_deselect "Mode" b (λ _, O) ui
              (Discover.mkDisk None None) 7 [] Hname eq_refl eq_refl)
    as (Hreq & Hsel & _ & _ & _ & Hpage & _).
  split; [by rewrite Hreq|]. split; [exact Hsel|exact Hpage].
Defined.

(** X27.  [fetchShopData] never rejects and always ends with the three
    progress flags ([loading], [loadingMore], [refreshing]) false.  A body
    with [success: true] replaces the products when [shouldReset] is set
    and appends the page to them otherwise, and takes the page counter and
    the number of pages from the reply; the toast is left alone.  A body
    with [success: false] or a request that throws keeps the products, the
    page counter and the number of pages, and shows a toast that is never
    empty: the message of the body, or a fixed text when it is missing or
    empty. *)
Theorem fetchShopData_outcomes
    (pageNum : Z) (shouldReset : bool) (reply : ShopDetail.Reply)
    (s : ShopDetail.Screen) (w : World unit) :
  ∃ s', result (ShopDetail.fetchShopData pageNum shouldReset reply s) w = Resolved s' ∧
    ShopDetail.loading s' = false ∧
    ShopDetail.loadingMore s' = false ∧
    ShopDetail.refreshing s' = false ∧
    (∀ d, reply = ShopDetail.Body d → ShopDetail.success d = true →
          ShopDetail.products s'
            = (if shouldReset then ShopDetail.body_products d
               else ShopDetail.products s ++ ShopDetail.body_products d) ∧
          ShopDetail.page s' = ShopDetail.pg_page (ShopDetail.pagination d) ∧
          ShopDetail.totalPages s' = ShopDetail.pg_totalPages (ShopDetail.pagination d) ∧
          ShopDetail.toast s' = ShopDetail.toast s) ∧
    ((∀ d, reply = ShopDetail.Body d → ShopDetail.success d = false) →
          ShopDetail.products s' = ShopDetail.products s ∧
          ShopDetail.page s' = ShopDetail.page s ∧
          ShopDetail.totalPages s' = ShopDetail.totalPages s ∧
          ∃ msg, ShopDetail.toast s' = Some msg ∧ msg ≠ "").
Proof.
  unfold result, ShopDetail.fetchShopData.
  destruct reply as [|d].
  - eexists. split; [reflexivity|].
    destruct (pageNum =? 1); cbn.
    all: repeat split; try done; eexists; split; [reflexivity|discriminate].
  - destruct (ShopDetail.success d) eqn:Hs.
    + eexists. split; [reflexivity|].
      destruct (pageNum =? 1); cbn.
      all: split; [done|]; split; [done|]; split; [done|]; split.
      all: try (intros d' [= <-] _; by destruct shouldReset).
      all: intros Hno; specialize (Hno d eq_refl); congruence.
    + eexists. split; [reflexivity|].
      assert (Hmsg : Js.or_else (default "" (ShopDetail.message d))
                       "Impossible de charger la boutique" ≠ "").
      { destruct (ShopDetail.message d) as [[|c m]|]; discriminate. }
      destruct (pageNum =? 1); cbn.
      all: split; [done|]; split; [done|]; split; [done|]; split.
      all: try (intros d' [= <-] Hyes; congruence).
      all: intros _; repeat split; eexists; split; [reflexivity|exact Hmsg].
Qed.

(** X28.  The shop detail screen stops asking at the last page: after a
    reply with [success: true] whose pagination says that the page
    received is the last one ([page >= totalPages]), [loadMore] changes
    nothing and sends nothing, whatever the reply offered to it; the same
    holds while a load is in flight ([loadingMore] set). *)
Theorem shop_loadMore_stops
    (pageNum : Z) (shouldReset : bool) (d : ShopDetail.ShopBody)
    (s : ShopDetail.Screen) (w : World unit)
    (Hsuccess : ShopDetail.success d = true)
    (Hlast : ShopDetail.pg_totalPages (ShopDetail.pagination d)
             ≤ ShopDetail.pg_page (ShopDetail.pagination d)) :
  let s' := screenAfter (ShopDetail.fetchShopData pageNum shouldReset (ShopDetail.Body d) s) w s in
  (∀ reply v, ShopDetail.loadMore reply s' v = (Resolved s', v)) ∧
  (∀ reply v, ShopDetail.loadMore reply (ShopDetail.setLoadingMore true s) v
              = (Resolved (ShopDetail.setLoadingMore true s), v)).
Proof.
  intros s'. split.
  - intros reply v. unfold ShopDetail.loadMore.
    replace (ShopDetail.page s' <? ShopDetail.totalPages s') with false; [done|].
    symmetry. apply Z.ltb_ge. subst s'.
    unfold screenAfter, result, ShopDetail.fetchShopData, mbind, IO_bind.
    rewrite Hsuccess. destruct (pageNum =? 1); cbn; lia.
  - intros reply v. unfold ShopDetail.loadMore. cbn [ShopDetail.setLoadingMore ShopDetail.loadingMore].
    by rewrite andb_false_r.
Qed.

Lemma shop_loadMore_stops_witness :
  let item id := ShopDetail.mkProduct id "Sac" (5 # 1) 1 in
  let d := ShopDetail.mkShopBody true "Boutique" "Awa" [item "7"]
             (ShopDetail.mkPagination 1 1) None in
  let w := working tt 0 [] in
  let s' := screenAfter (ShopDetail.fetchShopData 1 true (ShopDetail.Body d)
                           ShopDetail.mounted) w ShopDetail.mounted in
  screenAfter (ShopDetail.loadMore (ShopDetail.Body d) s') w s' = s'.
Proof.
  intros item d w s'.
  assert (Hlast : ShopDetail.pg_totalPages (ShopDetail.pagination d)
                  ≤ ShopDetail.pg_page (ShopDetail.pagination d))
    by (vm_compute; discriminate).
  destruct (shop_loadMore_stops 1 true d ShopDetail.mounted w eq_refl Hlast)
    as [Hstop _].
  pose proof (Hstop (ShopDetail.Body d) w) as E. fold s' in E.
  unfold screenAfter at 1, result. by rewrite E.
Defined.
